(** * Verification of [blacksheep/server/templating.py]

    The module wires a web application to the Jinja2 template engine:
    it normalises template names, provisions one shared rendering
    environment in the application's service registry, and wraps rendered
    HTML in a fixed HTTP response.

    The embedding follows the Python source function by function.  Python
    objects that are shared and mutated (the application, the rendering
    environment) live in an explicit heap and are passed by reference;
    exceptions are results; a coroutine is a value that is either finished
    or awaiting the engine's awaitable. *)

From Stdlib Require Import NArith ZArith Strings.Byte String List Bool Lia.
From stdpp Require Import base option list gmap strings.

Local Open Scope N_scope.

(** ** Python data *)

(** A Python [str] is a sequence of Unicode code points, a [bytes] object a
    sequence of octets. *)
Abbreviation str := (list N).
Abbreviation bytes := (list byte).

(** ASCII literals of the source: ['...'] and [b'...']. *)
Definition str_literal (s : string) : str :=
  map Byte.to_N (list_byte_of_string s).

Definition bytes_literal (s : string) : bytes :=
  list_byte_of_string s.

(** The values stored in registries and passed as render arguments. Objects
    with identity are references into the heap. *)
Inductive Value : Type :=
| VNone
| VBool (b : bool)
| VInt (z : Z)
| VStr (s : str)
| VRef (l : nat).

(** Truth value testing, as [if not env] performs it. Instances of
    [Application] and [Environment] define neither [__bool__] nor
    [__len__], so a reference is always true. *)
Definition truthy (v : Value) : bool :=
  match v with
  | VNone => false
  | VBool b => b
  | VInt z => negb (Z.eqb z 0)
  | VStr s => negb (bool_decide (s = []))
  | VRef _ => true
  end.

(** Exceptions that can cross this module: the built-in ones of attribute
    access, lookup, calls and encoding, and those of [jinja2.exceptions]. *)
Inductive Exn : Type :=
| AttributeError (attribute : string)
| KeyError (key : string)
| TypeError (message : str)
| RuntimeError (message : str)
| UnicodeEncodeError (position : nat) (code_point : N)
| TemplateNotFound (name : str)
| TemplateSyntaxError (message : str)
| UndefinedError (message : str).

Inductive Result (A : Type) : Type :=
| Ok (a : A)
| Raise (e : Exn).
Arguments Ok {A} a.
Arguments Raise {A} e.

#[global] Instance Result_ret : MRet Result := fun _ a => Ok a.
#[global] Instance Result_bind : MBind Result := fun _ _ f r =>
  match r with
  | Ok a => f a
  | Raise e => Raise e
  end.

(** ** [str] built-ins used by the module *)

(** [s.endswith(suffix)] *)
Definition endswith (s suffix : str) : bool :=
  bool_decide (suffix `suffix_of` s).

(** [s.encode('utf8')]: strict UTF-8. A surrogate code point
    (U+D800..U+DFFF) cannot be encoded and raises [UnicodeEncodeError]. *)
Definition byte_of_N (n : N) : byte :=
  default x00 (Byte.of_N n).

Definition is_surrogate (c : N) : bool :=
  (0xD800 <=? c) && (c <=? 0xDFFF).

Definition continuation_byte (c : N) (shift : N) : byte :=
  byte_of_N (N.lor 0x80 (N.land (N.shiftr c shift) 0x3F)).

Definition utf8_encode_char (c : N) : option bytes :=
  if c <? 0x80 then
    Some [byte_of_N c]
  else if c <? 0x800 then
    Some [byte_of_N (N.lor 0xC0 (N.shiftr c 6)); continuation_byte c 0]
  else if is_surrogate c then
    None
  else if c <? 0x10000 then
    Some [byte_of_N (N.lor 0xE0 (N.shiftr c 12));
          continuation_byte c 6; continuation_byte c 0]
  else
    Some [byte_of_N (N.lor 0xF0 (N.land (N.shiftr c 18) 0x07));
          continuation_byte c 12; continuation_byte c 6; continuation_byte c 0].

Fixpoint utf8_encode_from (position : nat) (s : str) : Result bytes :=
  match s with
  | [] => Ok []
  | c :: rest =>
      match utf8_encode_char c with
      | None => Raise (UnicodeEncodeError position c)
      | Some octets =>
          tail ← utf8_encode_from (S position) rest;
          Ok (octets ++ tail)
      end
  end.

Definition encode_utf8 (s : str) : Result bytes :=
  utf8_encode_from 0 s.

(** ** [functools.lru_cache]

    The decorator keeps a table from arguments to results, bounded by
    [maxsize]; a hit moves the entry to the most-recent end, a miss calls
    the function, stores the result and, when the table is full, drops the
    least recently used entry. The table is a list, most recent first. *)
Module functools.
Section lru_cache.
Context {K V : Type} `{EqDecision K}.
Variable maxsize : nat.
Variable user_function : K -> V.

Fixpoint cache_get (key : K) (cache : list (K * V)) : option V :=
  match cache with
  | [] => None
  | (k, v) :: rest => if decide (k = key) then Some v else cache_get key rest
  end.

Definition cache_remove (key : K) (cache : list (K * V)) : list (K * V) :=
  filter (fun kv => kv.1 <> key) cache.

Definition lru_cache (key : K) (cache : list (K * V)) : V * list (K * V) :=
  match cache_get key cache with
  | Some result => (result, (key, result) :: cache_remove key cache)
  | None =>
      let result := user_function key in
      if (length cache <? maxsize)%nat
      then (result, (key, result) :: cache)
      else (result, (key, result) :: removelast cache)
  end.

(** Every stored result is the function's result at its key. *)
Definition cache_consistent (cache : list (K * V)) : Prop :=
  Forall (fun kv => kv.2 = user_function kv.1) cache.
End lru_cache.
End functools.

(** ** Template name normalisation *)

(** [template_name]: the function under the decorator. *)
Definition template_name (name : str) : str :=
  if negb (endswith name (str_literal ".html"))
  then name ++ str_literal ".html"
  else name.

(** [@lru_cache(1200)]: the name the module binds is the memoised function,
    which threads the cache. *)
Definition template_name_cached
    (name : str) (cache : list (str * str)) : str * list (str * str) :=
  functools.lru_cache 1200 template_name name cache.

(** ** HTTP response *)

(** Modelled from the spec: the classes [Response] and [Content] of
    [blacksheep] are not part of the source at hand. A response is a status
    code, a header list and a body; a content is a content type and the
    body octets; [with_content] attaches the content and returns the
    response. *)
Record Content : Type := {
  content_type : bytes;
  body : bytes
}.

Record Response : Type := {
  status : Z;
  headers : list (bytes * bytes);
  content : option Content
}.

Definition with_content (r : Response) (c : Content) : Response :=
  {| status := status r; headers := headers r; content := Some c |}.

(** [get_response] *)
Definition get_response (html : str) : Result Response :=
  encoded ← encode_utf8 html;
  Ok (with_content
        {| status := 200;
           headers := [(bytes_literal "Cache-Control", bytes_literal "no-cache")];
           content := None |}
        {| content_type := bytes_literal "text/html; charset=utf-8";
           body := encoded |}).

(** ** The template engine (Jinja2) and the application *)

(** [PackageLoader(package_name, package_path)] *)
Record PackageLoader : Type := {
  package_name : string;
  package_path : string
}.

(** [select_autoescape(enabled_extensions)] *)
Inductive Autoescape : Type :=
| select_autoescape (enabled_extensions : list string).

(** The state of an [Environment] object that the module sets. *)
Record Environment : Type := {
  loader : PackageLoader;
  autoescape : Autoescape;
  auto_reload : bool;
  enable_async : bool;
  globals : gmap string Value
}.

(** A compiled template is an object of the engine, known by its identity. *)
Inductive Template : Type :=
| CompiledTemplate (id : nat).

(** [*args, **kwargs]: what a function collects beyond its own parameters. *)
Record CallArgs : Type := {
  args : list Value;
  kwargs : list (string * Value)
}.

(** Whether a keyword is among the collected keyword arguments. *)
Definition has_keyword (key : string) (a : CallArgs) : bool :=
  bool_decide (key ∈ (kwargs a).*1).

(** The call [function(template, *args, **kwargs)] of a function whose first
    parameter is named [template]: a collected keyword of that name would
    give the parameter a second value, and the call raises [TypeError]
    before the body runs. *)
Definition multiple_values (function : string) : Exn :=
  TypeError (str_literal (String.append function
               "() got multiple values for argument 'template'")).

Definition bind_template (function : string) (a : CallArgs) : Result unit :=
  if has_keyword "template" a
  then Raise (multiple_values function)
  else Ok tt.

(** The engine is an external collaborator: the namespace a new environment
    starts with, name resolution, synchronous rendering, and the value the
    awaitable of [render_async] resolves to. Each may raise. *)
Class TemplateEngine : Type := {
  DEFAULT_NAMESPACE : gmap string Value;
  Environment_get_template : Environment -> str -> Result Template;
  Template_render : Template -> CallArgs -> Result str;
  Template_render_async : Template -> CallArgs -> Result str
}.

(** Modelled from the spec: the class [Application] is not part of the
    source at hand. It carries a debug flag and a service registry, a
    mapping-like object with get-or-absent lookup (an absent key yields
    [None]) and assignment by string key. *)
Record Application : Type := {
  debug : bool;
  services : gmap string Value
}.

Definition Registry_getitem (registry : gmap string Value) (key : string)
    : Result Value :=
  Ok (default VNone (registry !! key)).

Definition Registry_setitem (registry : gmap string Value) (key : string)
    (v : Value) : gmap string Value :=
  <[key := v]> registry.

(** ** Heap and the monad of synchronous code *)

Inductive Object : Type :=
| ObjApplication (a : Application)
| ObjEnvironment (e : Environment).

Abbreviation Heap := (list Object).

Definition M (A : Type) : Type := Heap -> Result A * Heap.

#[global] Instance M_ret : MRet M := fun _ a h => (Ok a, h).
#[global] Instance M_bind : MBind M := fun _ _ f m h =>
  match m h with
  | (Ok a, h') => f a h'
  | (Raise e, h') => (Raise e, h')
  end.

Definition lift {A : Type} (r : Result A) : M A := fun h => (r, h).

(** Allocation of a new object: the next free address. *)
Definition alloc (o : Object) : M Value :=
  fun h => (Ok (VRef (length h)), h ++ [o]).

Definition get_application (v : Value) (attribute : string) : M Application :=
  fun h =>
    match v with
    | VRef l =>
        match h !! l with
        | Some (ObjApplication a) => (Ok a, h)
        | _ => (Raise (AttributeError attribute), h)
        end
    | _ => (Raise (AttributeError attribute), h)
    end.

Definition get_environment (v : Value) (attribute : string) : M Environment :=
  fun h =>
    match v with
    | VRef l =>
        match h !! l with
        | Some (ObjEnvironment e) => (Ok e, h)
        | _ => (Raise (AttributeError attribute), h)
        end
    | _ => (Raise (AttributeError attribute), h)
    end.

Definition store (v : Value) (o : Object) : M unit :=
  fun h =>
    match v with
    | VRef l => (Ok tt, <[l := o]> h)
    | _ => (Raise (AttributeError "__setitem__"), h)
    end.

(** [app.services[key]] *)
Definition services_getitem (app : Value) (key : string) : M Value :=
  a ← get_application app "services";
  lift (Registry_getitem (services a) key).

(** [app.services[key] = v] *)
Definition services_setitem (app : Value) (key : string) (v : Value) : M unit :=
  a ← get_application app "services";
  store app (ObjApplication
               {| debug := debug a;
                  services := Registry_setitem (services a) key v |}).

(** [app.debug] *)
Definition get_debug (app : Value) : M bool :=
  a ← get_application app "debug";
  mret (debug a).

(** [env.globals[key] = v] *)
Definition globals_setitem (env : Value) (key : string) (v : Value) : M unit :=
  e ← get_environment env "globals";
  store env (ObjEnvironment
               {| loader := loader e;
                  autoescape := autoescape e;
                  auto_reload := auto_reload e;
                  enable_async := enable_async e;
                  globals := <[key := v]> (globals e) |}).

(** ** Coroutines

    A coroutine of this module is finished, with a value or an exception,
    or awaiting the awaitable of [template.render_async], to go on with what
    that awaitable resolves to. Whether that awaitable suspends, and how
    often, is the engine's matter. *)
Inductive Coroutine (A : Type) : Type :=
| Finished (r : Result A)
| Awaiting (template : Template) (a : CallArgs)
           (resume : Result str -> Coroutine A).
Arguments Finished {A} r.
Arguments Awaiting {A} template a resume.

(** [await c] followed by the rest of the body. *)
Fixpoint await {A B : Type} (c : Coroutine A) (rest : A -> Coroutine B)
    : Coroutine B :=
  match c with
  | Finished (Ok a) => rest a
  | Finished (Raise e) => Finished (Raise e)
  | Awaiting t a resume => Awaiting t a (fun r => await (resume r) rest)
  end.

(** [await f(...)] followed by the rest of the body: the call of the
    coroutine function may itself raise, and then nothing is awaited. *)
Definition await_call {A B : Type} (call : Result (Coroutine A))
    (rest : A -> Coroutine B) : Coroutine B :=
  match call with
  | Ok c => await c rest
  | Raise e => Finished (Raise e)
  end.

(** What a view function is: a plain function, or a coroutine function,
    whose call yields a coroutine to be run from a given heap. *)
Inductive Callable : Type :=
| PlainFunction (f : str -> CallArgs -> M Response)
| CoroutineFunction (f : str -> CallArgs -> Heap -> Coroutine Response * Heap).

(** The docstrings of the two direct helpers. *)
Definition view_doc : string :=
  "Returns a Response object with HTML obtained from synchronous rendering.

    Use this when `enable_async` is set to False when calling `use_templates`.".

Definition view_async_doc : string :=
  "Returns a Response object with HTML obtained from synchronous rendering.".

(** Substring test on docstrings. *)
Fixpoint contains (needle haystack : string) : bool :=
  String.prefix needle haystack ||
  match haystack with
  | EmptyString => false
  | String _ rest => contains needle rest
  end.

Section templating.
Context {engine : TemplateEngine}.

(** [Environment(loader=..., autoescape=..., auto_reload=...,
    enable_async=...)] *)
Definition new_Environment (l : PackageLoader) (ae : Autoescape)
    (reload async : bool) : M Value :=
  alloc (ObjEnvironment
           {| loader := l;
              autoescape := ae;
              auto_reload := reload;
              enable_async := async;
              globals := DEFAULT_NAMESPACE |}).

(** [env.get_template(name)] *)
Definition get_template (env : Value) (name : str) : M Template :=
  e ← get_environment env "get_template";
  lift (Environment_get_template e name).

(** [render_template]: the call binds [template] and collects the rest;
    the body renders. *)
Definition render_template (template : Template) (a : CallArgs) : M str :=
  _ ← lift (bind_template "render_template" a);
  lift (Template_render template a).

(** [render_template_async]: the call binds [template] and collects the
    rest, and yields the coroutine whose body awaits the rendering. *)
Definition render_template_async (template : Template) (a : CallArgs)
    : Result (Coroutine str) :=
  _ ← bind_template "render_template_async" a;
  Ok (await (Awaiting template a Finished) (fun html => Finished (Ok html))).

(** Runs a coroutine to completion; the engine's awaitables resolve as the
    engine says. *)
Fixpoint run_until_complete {A : Type} (c : Coroutine A) : Result A :=
  match c with
  | Finished r => r
  | Awaiting t a resume =>
      run_until_complete (resume (Template_render_async t a))
  end.

(** [view] *)
Definition view (jinja_environment : Value) (name : str) (a : CallArgs)
    : M Response :=
  template ← get_template jinja_environment (template_name name);
  html ← render_template template a;
  lift (get_response html).

(** [view_async]: the body runs, in the heap in which the coroutine is
    started, up to where it awaits the engine. *)
Definition view_async (jinja_environment : Value) (name : str) (a : CallArgs)
    : Heap -> Coroutine Response * Heap :=
  fun h =>
    match get_template jinja_environment (template_name name) h with
    | (Ok template, h') =>
        (await_call (render_template_async template a)
                    (fun html => Finished (get_response html)), h')
    | (Raise e, h') => (Finished (Raise e), h')
    end.

(** The two closures of [use_templates], over the variable [env]. *)
Definition sync_view (env : Value) (name : str) (a : CallArgs) : M Response :=
  template ← get_template env (template_name name);
  html ← render_template template a;
  lift (get_response html).

Definition async_view (env : Value) (name : str) (a : CallArgs)
    : Heap -> Coroutine Response * Heap :=
  fun h =>
    match get_template env (template_name name) h with
    | (Ok template, h') =>
        (await_call (render_template_async template a)
                    (fun html => Finished (get_response html)), h')
    | (Raise e, h') => (Finished (Raise e), h')
    end.

(** [use_templates] *)
Definition use_templates (app : Value) (l : PackageLoader)
    (enable_async : bool) : M Callable :=
  env ← services_getitem app "jinja_environment";
  env ← (if negb (truthy env) then
           reload ← get_debug app;
           env ← new_Environment l (select_autoescape ["html"; "xml"]%string)
                   reload enable_async;
           _ ← services_setitem app "jinja_environment" env;
           _ ← services_setitem app "jinja" env;
           _ ← globals_setitem env "app" app;
           mret env
         else mret env);
  if enable_async
  then mret (CoroutineFunction (async_view env))
  else mret (PlainFunction (sync_view env)).

(** The function [use_templates] returns, by the flag. *)
Definition view_function (enable_async : bool) (env : Value) : Callable :=
  if enable_async
  then CoroutineFunction (async_view env)
  else PlainFunction (sync_view env).

(** The environment [use_templates] leaves in the heap when it creates
    one for the application at address [l]. *)
Definition created_environment (l : nat) (a : Application)
    (ld : PackageLoader) (enable_async : bool) : Environment :=
  {| loader := ld;
     autoescape := select_autoescape ["html"; "xml"]%string;
     auto_reload := debug a;
     enable_async := enable_async;
     globals := <["app"%string := VRef l]> DEFAULT_NAMESPACE |}.

(** The application after provisioning, the environment being at [n]. *)
Definition provisioned_application (a : Application) (n : nat) : Application :=
  {| debug := debug a;
     services := <["jinja"%string := VRef n]>
                   (<["jinja_environment"%string := VRef n]> (services a)) |}.

End templating.

(** ** Concrete collaborators used to exercise the statements *)

(** The caches the memoised [template_name] can be in: the empty one, and
    any cache left by a call. *)
Inductive reachable_cache : list (str * str) -> Prop :=
| reachable_empty : reachable_cache []
| reachable_call name cache :
    reachable_cache cache ->
    reachable_cache (template_name_cached name cache).2.

(** An engine that knows the template [index.html] only. *)
Definition index_engine : TemplateEngine := {|
  DEFAULT_NAMESPACE := {[ "range"%string := VNone ]};
  Environment_get_template := fun _ name =>
    if bool_decide (name = str_literal "index.html")
    then Ok (CompiledTemplate 7)
    else Raise (TemplateNotFound name);
  Template_render := fun _ _ => Ok (str_literal "<p>hi</p>");
  Template_render_async := fun _ _ => Ok (str_literal "<p>async</p>")
|}.

(** An engine whose rendering fails on an undefined variable. *)
Definition failing_engine : TemplateEngine := {|
  DEFAULT_NAMESPACE := ∅;
  Environment_get_template := fun _ name =>
    if bool_decide (name = str_literal "index.html")
    then Ok (CompiledTemplate 7)
    else Raise (TemplateNotFound name);
  Template_render := fun _ _ => Raise (UndefinedError (str_literal "user"));
  Template_render_async := fun _ _ => Raise (UndefinedError (str_literal "user"))
|}.

Definition templates_loader : PackageLoader :=
  {| package_name := "app"; package_path := "templates" |}.

Definition no_args : CallArgs := {| args := []; kwargs := [] |}.

(** A new application, and one whose registry holds an environment created
    without asynchronous rendering. *)
Definition fresh_app : Application := {| debug := true; services := ∅ |}.

Definition fresh_heap : Heap := [ObjApplication fresh_app].

Definition sync_environment : Environment := {|
  loader := templates_loader;
  autoescape := select_autoescape ["html"; "xml"]%string;
  auto_reload := false;
  enable_async := false;
  globals := ∅
|}.

Definition provisioned_heap : Heap :=
  [ObjApplication
     {| debug := false;
        services := {[ "jinja_environment"%string := VRef 1 ]} |};
   ObjEnvironment sync_environment].

(** ** Notions used to state further properties *)

(** The code points a Python [str] can hold: U+0000 to U+10FFFF. *)
Definition is_code_point (c : N) : bool :=
  c <? 0x110000.

(** Reading UTF-8 back: the lead octet tells the length of the sequence,
    each continuation octet carries six bits. This is the inverse of the
    encoder on what the encoder produces. *)
Fixpoint utf8_decode (octets : bytes) : option str :=
  match octets with
  | [] => Some []
  | b0 :: r0 =>
      let n0 := Byte.to_N b0 in
      if n0 <? 0x80 then
        cons n0 <$> utf8_decode r0
      else if n0 <? 0xE0 then
        match r0 with
        | b1 :: r1 =>
            cons ((n0 - 0xC0) * 64 + (Byte.to_N b1 - 0x80)) <$> utf8_decode r1
        | _ => None
        end
      else if n0 <? 0xF0 then
        match r0 with
        | b1 :: b2 :: r2 =>
            cons ((n0 - 0xE0) * 4096 + (Byte.to_N b1 - 0x80) * 64
                  + (Byte.to_N b2 - 0x80)) <$> utf8_decode r2
        | _ => None
        end
      else
        match r0 with
        | b1 :: b2 :: b3 :: r3 =>
            cons ((n0 - 0xF0) * 262144 + (Byte.to_N b1 - 0x80) * 4096
                  + (Byte.to_N b2 - 0x80) * 64 + (Byte.to_N b3 - 0x80))
              <$> utf8_decode r3
        | _ => None
        end
  end.

(** The environment a value refers to in a heap, if it refers to one. *)
Definition environment_of (h : Heap) (v : Value) : option Environment :=
  match v with
  | VRef n =>
      match h !! n with
      | Some (ObjEnvironment e) => Some e
      | _ => None
      end
  | _ => None
  end.

(** The response [get_response] builds around a body. *)
Definition html_response (encoded : bytes) : Response :=
  {| status := 200;
     headers := [(bytes_literal "Cache-Control", bytes_literal "no-cache")];
     content := Some {| content_type := bytes_literal "text/html; charset=utf-8";
                        body := encoded |} |}.

(** A heap whose registry entry is a string, a value that is no
    environment. *)
Definition text_entry_heap : Heap :=
  [ObjApplication
     {| debug := false;
        services := {[ "jinja_environment"%string := VStr (str_literal "x") ]} |}].

(** A registry that holds an environment created with asynchronous
    rendering. *)
Definition async_environment : Environment := {|
  loader := templates_loader;
  autoescape := select_autoescape ["html"; "xml"]%string;
  auto_reload := false;
  enable_async := true;
  globals := ∅
|}.

Definition async_heap : Heap :=
  [ObjApplication
     {| debug := false;
        services := {[ "jinja_environment"%string := VRef 1 ]} |};
   ObjEnvironment async_environment].

(** Render arguments with a keyword named [template]. *)
Definition template_keyword_args : CallArgs :=
  {| args := []; kwargs := [("template"%string, VInt 1)] |}.

(** * Properties *)

(** ** Strings *)

Lemma endswith_true (s suffix : str) :
  endswith s suffix = true <-> suffix `suffix_of` s.
Proof. unfold endswith. apply bool_decide_eq_true. Qed.

Lemma endswith_false (s suffix : str) :
  endswith s suffix = false <-> ~ suffix `suffix_of` s.
Proof. unfold endswith. apply bool_decide_eq_false. Qed.

Lemma template_name_endswith (name : str) :
  endswith (template_name name) (str_literal ".html") = true.
Proof.
  unfold template_name.
  destruct (endswith name (str_literal ".html")) eqn:E; simpl; [exact E|].
  apply endswith_true. exists name. reflexivity.
Qed.

(** ** The memoising decorator *)

Section lru_cache_facts.
Context {K V : Type} `{EqDecision K}.
Variable maxsize : nat.
Variable f : K -> V.

Lemma cache_get_consistent (key : K) (cache : list (K * V)) (v : V) :
  functools.cache_consistent f cache ->
  functools.cache_get key cache = Some v ->
  v = f key.
Proof.
  unfold functools.cache_consistent.
  induction 1 as [|[k w] rest Hkv Hrest IH]; simpl; [discriminate|].
  destruct (decide (k = key)) as [->|Hne].
  - intros [= <-]. exact Hkv.
  - exact IH.
Qed.


Lemma removelast_consistent (cache : list (K * V)) :
  functools.cache_consistent f cache ->
  functools.cache_consistent f (removelast cache).
Proof.
  unfold functools.cache_consistent.
  induction 1 as [|kv rest Hkv Hrest IH]; simpl; [constructor|].
  destruct rest; [constructor|].
  constructor; assumption.
Qed.

(** A call through the decorator returns what the function returns, and
    leaves a cache that is again consistent. *)
Lemma lru_cache_transparent (key : K) (cache : list (K * V)) :
  functools.cache_consistent f cache ->
  (functools.lru_cache maxsize f key cache).1 = f key /\
  functools.cache_consistent f (functools.lru_cache maxsize f key cache).2.
Proof.
  intros Hc. unfold functools.lru_cache.
  destruct (functools.cache_get key cache) as [v|] eqn:Hget.
  - pose proof (cache_get_consistent _ _ _ Hc Hget) as ->.
    split; [reflexivity|]. simpl.
    constructor; [reflexivity|].
    unfold functools.cache_remove, functools.cache_consistent in *.
    rewrite Forall_forall in Hc. apply Forall_forall. intros kv Hkv.
    apply list_elem_of_filter in Hkv as [_ Hkv]. apply Hc, Hkv.
  - destruct (length cache <? maxsize)%nat; simpl; split; try reflexivity.
    + constructor; [reflexivity | exact Hc].
    + constructor; [reflexivity | apply removelast_consistent; exact Hc].
Qed.

End lru_cache_facts.

Lemma reachable_cache_consistent (cache : list (str * str)) :
  reachable_cache cache -> functools.cache_consistent template_name cache.
Proof.
  induction 1 as [|name cache Hr IH]; [constructor|].
  apply (lru_cache_transparent 1200 template_name name cache IH).
Qed.


(** ** Normalisation of template names *)

(** C4. A name that does not end in ['.html'] gets the extension appended,
    once; a name that ends in it is returned as it is. The function is
    total, and the memoised function the module exports returns the same
    value from every cache it can be in. *)
Theorem template_name_normalises (name : str) :
  (~ str_literal ".html" `suffix_of` name ->
   template_name name = name ++ str_literal ".html") /\
  (str_literal ".html" `suffix_of` name ->
   template_name name = name) /\
  (forall cache, reachable_cache cache ->
   (template_name_cached name cache).1 = template_name name).
Proof.
  split; [|split].
  - intros Hno. apply endswith_false in Hno.
    unfold template_name. rewrite Hno. reflexivity.
  - intros Hyes. apply endswith_true in Hyes.
    unfold template_name. rewrite Hyes. reflexivity.
  - intros cache Hr. unfold template_name_cached.
    apply lru_cache_transparent, reachable_cache_consistent, Hr.
Qed.

Lemma template_name_normalises_witness :
  template_name (str_literal "index") = str_literal "index.html" /\
  template_name (str_literal "index.html") = str_literal "index.html" /\
  (template_name_cached (str_literal "index")
     (template_name_cached (str_literal "about") []).2).1
    = str_literal "index.html".
Proof.
  split; [|split].
  - apply (template_name_normalises (str_literal "index")).
    apply (proj1 (endswith_false _ _)). vm_compute. reflexivity.
  - apply (template_name_normalises (str_literal "index.html")).
    apply (proj1 (endswith_true _ _)). vm_compute. reflexivity.
  - apply (template_name_normalises (str_literal "index")).
    apply reachable_call, reachable_empty.
Defined.

(** C9. Normalisation is idempotent. *)
Theorem template_name_idempotent (name : str) :
  template_name (template_name name) = template_name name.
Proof.
  unfold template_name at 1.
  rewrite template_name_endswith. reflexivity.
Qed.

(** ** UTF-8 encoding *)

Lemma utf8_encode_char_None (c : N) :
  utf8_encode_char c = None <-> is_surrogate c = true.
Proof.
  unfold utf8_encode_char, is_surrogate.
  destruct (N.ltb_spec c 0x80); [split; [discriminate|]; intros E;
    apply andb_true_iff in E as [E _]; apply N.leb_le in E; lia|].
  destruct (N.ltb_spec c 0x800); [split; [discriminate|]; intros E;
    apply andb_true_iff in E as [E _]; apply N.leb_le in E; lia|].
  destruct ((0xD800 <=? c) && (c <=? 0xDFFF)); [tauto|].
  destruct (c <? 0x10000); split; discriminate.
Qed.

Lemma utf8_encode_from_Ok (s : str) (position : nat) :
  Forall (fun c => is_surrogate c = false) s ->
  exists encoded, utf8_encode_from position s = Ok encoded.
Proof.
  intros Hs. revert position.
  induction Hs as [|c rest Hc Hrest IH]; intros position; simpl.
  - exists []. reflexivity.
  - destruct (utf8_encode_char c) as [octets|] eqn:E.
    + destruct (IH (S position)) as [tail ->]. simpl.
      exists (octets ++ tail). reflexivity.
    + apply utf8_encode_char_None in E. congruence.
Qed.

Lemma utf8_encode_from_Raise (s : str) (position : nat) :
  Exists (fun c => is_surrogate c = true) s ->
  exists p c, is_surrogate c = true /\
              utf8_encode_from position s = Raise (UnicodeEncodeError p c).
Proof.
  intros Hs. revert position.
  induction Hs as [c rest Hc|c rest Hrest IH]; intros position; simpl.
  - apply utf8_encode_char_None in Hc. rewrite Hc.
    exists position, c. split; [apply utf8_encode_char_None, Hc | reflexivity].
  - destruct (utf8_encode_char c) as [octets|] eqn:E.
    + destruct (IH (S position)) as (p & c' & Hc' & ->). simpl.
      exists p, c'. split; [exact Hc' | reflexivity].
    + exists position, c. split; [apply utf8_encode_char_None, E | reflexivity].
Qed.

(** ASCII text is encoded octet for octet. *)
Lemma utf8_encode_from_ascii (s : str) (position : nat) :
  Forall (fun c => c < 0x80) s ->
  utf8_encode_from position s = Ok (map byte_of_N s).
Proof.
  intros Hs. revert position.
  induction Hs as [|c rest Hc Hrest IH]; intros position; simpl; [reflexivity|].
  unfold utf8_encode_char. apply N.ltb_lt in Hc. rewrite Hc.
  rewrite IH. reflexivity.
Qed.

(** One code point of each encoded length: U+0041, U+00E9, U+20AC, U+1F600. *)
Example encode_utf8_lengths :
  encode_utf8 [0x41; 0xE9; 0x20AC; 0x1F600]
  = Ok [x41; xc3; xa9; xe2; x82; xac; xf0; x9f; x98; x80].
Proof. vm_compute. reflexivity. Qed.

(** ** The monad of synchronous code *)

Lemma M_bind_Ok {A B : Type} (m : M A) (f : A -> M B) (h h' : Heap) (a : A) :
  m h = (Ok a, h') -> (m ≫= f) h = f a h'.
Proof. intros E. unfold mbind, M_bind. rewrite E. reflexivity. Qed.

Lemma M_bind_Raise {A B : Type} (m : M A) (f : A -> M B) (h h' : Heap) (e : Exn) :
  m h = (Raise e, h') -> (m ≫= f) h = (Raise e, h').
Proof. intros E. unfold mbind, M_bind. rewrite E. reflexivity. Qed.

Lemma services_getitem_at (h : Heap) (l : nat) (a : Application) (key : string) :
  h !! l = Some (ObjApplication a) ->
  services_getitem (VRef l) key h = (Ok (default VNone (services a !! key)), h).
Proof.
  intros Hl. unfold services_getitem.
  erewrite M_bind_Ok; [reflexivity|].
  unfold get_application. rewrite Hl. reflexivity.
Qed.

Lemma get_debug_at (h : Heap) (l : nat) (a : Application) :
  h !! l = Some (ObjApplication a) ->
  get_debug (VRef l) h = (Ok (debug a), h).
Proof.
  intros Hl. unfold get_debug.
  erewrite M_bind_Ok; [reflexivity|].
  unfold get_application. rewrite Hl. reflexivity.
Qed.

Lemma services_setitem_at (h : Heap) (l : nat) (a : Application)
    (key : string) (v : Value) :
  h !! l = Some (ObjApplication a) ->
  services_setitem (VRef l) key v h
  = (Ok tt, <[l := ObjApplication
                      {| debug := debug a;
                         services := <[key := v]> (services a) |}]> h).
Proof.
  intros Hl. unfold services_setitem.
  erewrite M_bind_Ok; [reflexivity|].
  unfold get_application. rewrite Hl. reflexivity.
Qed.

Lemma globals_setitem_at (h : Heap) (l : nat) (e : Environment)
    (key : string) (v : Value) :
  h !! l = Some (ObjEnvironment e) ->
  globals_setitem (VRef l) key v h
  = (Ok tt, <[l := ObjEnvironment
                      {| loader := loader e;
                         autoescape := autoescape e;
                         auto_reload := auto_reload e;
                         enable_async := enable_async e;
                         globals := <[key := v]> (globals e) |}]> h).
Proof.
  intros Hl. unfold globals_setitem.
  erewrite M_bind_Ok; [reflexivity|].
  unfold get_environment. rewrite Hl. reflexivity.
Qed.

(** ** Provisioning of the rendering environment *)

Section provisioning.
Context {engine : TemplateEngine}.

(** A registry whose lookup is true is left alone. *)
Lemma use_templates_reuse (h : Heap) (l : nat) (a : Application) (v : Value)
    (ld : PackageLoader) (flag : bool) :
  h !! l = Some (ObjApplication a) ->
  services a !! "jinja_environment"%string = Some v ->
  truthy v = true ->
  use_templates (VRef l) ld flag h = (Ok (view_function flag v), h).
Proof.
  intros Hl Hv Ht. unfold use_templates.
  erewrite M_bind_Ok; [|apply services_getitem_at, Hl].
  rewrite Hv. simpl. rewrite Ht. simpl.
  unfold view_function. destruct flag; reflexivity.
Qed.

(** A registry whose lookup is false gets a new environment. *)
Lemma use_templates_create (h : Heap) (l : nat) (a : Application)
    (ld : PackageLoader) (flag : bool) :
  h !! l = Some (ObjApplication a) ->
  truthy (default VNone (services a !! "jinja_environment"%string)) = false ->
  use_templates (VRef l) ld flag h
  = (Ok (view_function flag (VRef (length h))),
     <[l := ObjApplication (provisioned_application a (length h))]> h
       ++ [ObjEnvironment (created_environment l a ld flag)]).
Proof.
  intros Hl Hf.
  pose proof (lookup_lt_Some _ _ _ Hl) as Hlt.
  unfold use_templates.
  erewrite M_bind_Ok; [|apply services_getitem_at, Hl].
  rewrite Hf. simpl negb. cbv iota.
  erewrite M_bind_Ok; [unfold view_function; destruct flag; reflexivity|].
  erewrite M_bind_Ok; [|apply get_debug_at, Hl].
  erewrite M_bind_Ok; [|reflexivity].
  erewrite M_bind_Ok;
    [|apply services_setitem_at, lookup_app_l_Some, Hl].
  erewrite M_bind_Ok;
    [|apply services_setitem_at, list_lookup_insert_eq;
      rewrite length_app; simpl; lia].
  erewrite M_bind_Ok.
  2:{ apply globals_setitem_at.
      do 2 (rewrite list_lookup_insert_ne; [|lia]).
      apply list_lookup_middle. reflexivity. }
  unfold mret, M_ret. simpl. f_equal.
  rewrite list_insert_insert_eq.
  rewrite insert_app_l by exact Hlt.
  rewrite insert_app_r_alt by (rewrite length_insert; lia).
  rewrite length_insert, Nat.sub_diag. reflexivity.
Qed.

(** Whatever the registry holds, a call on an application succeeds and
    returns the view function of the flag over some environment. *)
Lemma use_templates_returns (h : Heap) (l : nat) (a : Application)
    (ld : PackageLoader) (flag : bool) :
  h !! l = Some (ObjApplication a) ->
  exists env h', use_templates (VRef l) ld flag h
                 = (Ok (view_function flag env), h').
Proof.
  intros Hl.
  destruct (truthy (default VNone (services a !! "jinja_environment"%string)))
    eqn:Ht.
  - destruct (services a !! "jinja_environment"%string) as [v|] eqn:Hv;
      [|discriminate].
    exists v, h. apply (use_templates_reuse h l a v); assumption.
  - eexists _, _. apply (use_templates_create h l a); assumption.
Qed.
(** The two ways a call on an application goes: the entry is true and the
    heap stays, or it is false or missing and an environment is created. *)
Lemma use_templates_cases (h : Heap) (l : nat) (a : Application) :
  h !! l = Some (ObjApplication a) ->
  (exists v,
     services a !! "jinja_environment"%string = Some v /\
     truthy v = true /\
     forall ld flag,
       use_templates (VRef l) ld flag h = (Ok (view_function flag v), h)) \/
  (truthy (default VNone (services a !! "jinja_environment"%string)) = false /\
   forall ld flag,
     use_templates (VRef l) ld flag h
     = (Ok (view_function flag (VRef (length h))),
        <[l := ObjApplication (provisioned_application a (length h))]> h
          ++ [ObjEnvironment (created_environment l a ld flag)])).
Proof.
  intros Hl.
  destruct (truthy (default VNone (services a !! "jinja_environment"%string)))
    eqn:Ht.
  - left.
    destruct (services a !! "jinja_environment"%string) as [v|] eqn:Hv;
      [|discriminate].
    exists v. split; [reflexivity|]. split; [exact Ht|].
    intros ld flag. apply (use_templates_reuse h l a v); assumption.
  - right. split; [reflexivity|].
    intros ld flag. apply (use_templates_create h l a); assumption.
Qed.

Lemma provisioned_lookup (h : Heap) (l : nat) (a a' : Application)
    (e : Environment) :
  h !! l = Some (ObjApplication a) ->
  (<[l := ObjApplication a']> h ++ [ObjEnvironment e]) !! l
  = Some (ObjApplication a') /\
  (<[l := ObjApplication a']> h ++ [ObjEnvironment e]) !! length h
  = Some (ObjEnvironment e) /\
  length (<[l := ObjApplication a']> h ++ [ObjEnvironment e]) = S (length h) /\
  (forall j, j <> l -> (j < length h)%nat ->
             (<[l := ObjApplication a']> h ++ [ObjEnvironment e]) !! j = h !! j).
Proof.
  intros Hl. pose proof (lookup_lt_Some _ _ _ Hl) as Hlt.
  split; [apply lookup_app_l_Some, list_lookup_insert_eq, Hlt|].
  split; [apply list_lookup_middle; rewrite length_insert; reflexivity|].
  split; [rewrite length_app, length_insert; simpl; lia|].
  intros j Hj Hjlt.
  rewrite lookup_app_l by (rewrite length_insert; exact Hjlt).
  apply list_lookup_insert_ne. congruence.
Qed.

(** C1. On an application whose registry has no entry
    ['jinja_environment'], the lookup of that key does not raise and
    yields [None], and [use_templates] allocates a new environment with
    the given loader, autoescape for html and xml, [auto_reload] equal
    to the application's debug flag and [enable_async] equal to the flag;
    the registry then holds the reference to that one object under
    ['jinja_environment'] and under ['jinja'], and the environment's
    global ['app'] is the application. Nothing else in the heap changes. *)
Theorem use_templates_provisions (h : Heap) (l : nat) (a : Application)
    (ld : PackageLoader) (flag : bool) :
  h !! l = Some (ObjApplication a) ->
  services a !! "jinja_environment"%string = None ->
  Registry_getitem (services a) "jinja_environment" = Ok VNone /\
  h !! length h = None /\
  exists f a' e,
    use_templates (VRef l) ld flag h
    = (Ok f, <[l := ObjApplication a']> h ++ [ObjEnvironment e]) /\
    e = {| loader := ld;
           autoescape := select_autoescape ["html"; "xml"]%string;
           auto_reload := debug a;
           enable_async := flag;
           globals := <["app"%string := VRef l]> DEFAULT_NAMESPACE |} /\
    (<[l := ObjApplication a']> h ++ [ObjEnvironment e]) !! length h
    = Some (ObjEnvironment e) /\
    (<[l := ObjApplication a']> h ++ [ObjEnvironment e]) !! l
    = Some (ObjApplication a') /\
    debug a' = debug a /\
    services a' !! "jinja_environment"%string = Some (VRef (length h)) /\
    services a' !! "jinja"%string = Some (VRef (length h)) /\
    (forall key, key <> "jinja_environment"%string -> key <> "jinja"%string ->
                 services a' !! key = services a !! key) /\
    globals e !! "app"%string = Some (VRef l).
Proof.
  intros Hl Hnone.
  pose proof (lookup_lt_Some _ _ _ Hl) as Hlt.
  split; [unfold Registry_getitem; rewrite Hnone; reflexivity|].
  split; [apply lookup_ge_None_2; lia|].
  exists (view_function flag (VRef (length h))),
         (provisioned_application a (length h)),
         (created_environment l a ld flag).
  split; [apply use_templates_create; [exact Hl | rewrite Hnone; reflexivity]|].
  split; [reflexivity|].
  split; [apply list_lookup_middle; rewrite length_insert; reflexivity|].
  split; [apply lookup_app_l_Some, list_lookup_insert_eq, Hlt|].
  split; [reflexivity|].
  unfold provisioned_application, created_environment; simpl.
  split; [rewrite lookup_insert_ne by discriminate; apply lookup_insert_eq|].
  split; [apply lookup_insert_eq|].
  split; [|apply lookup_insert_eq].
  intros key H1 H2. rewrite !lookup_insert_ne by congruence. reflexivity.
Qed.

(** C2. Two calls with [enable_async=False] on the same application both
    return the synchronous view function, over the same environment; the
    second call leaves the heap, and so the registry, exactly as the first
    call left it, and allocates nothing. When the registry had no entry,
    that environment is the one the first call created. *)
Theorem use_templates_twice (h : Heap) (l : nat) (a : Application)
    (ld1 ld2 : PackageLoader) :
  h !! l = Some (ObjApplication a) ->
  exists env h1 a1,
    use_templates (VRef l) ld1 false h = (Ok (PlainFunction (sync_view env)), h1) /\
    use_templates (VRef l) ld2 false h1 = (Ok (PlainFunction (sync_view env)), h1) /\
    h1 !! l = Some (ObjApplication a1) /\
    services a1 !! "jinja_environment"%string = Some env /\
    (services a !! "jinja_environment"%string = None ->
     env = VRef (length h) /\
     length h1 = S (length h) /\
     h1 !! length h
     = Some (ObjEnvironment (created_environment l a ld1 false))).
Proof.
  intros Hl.
  pose proof (lookup_lt_Some _ _ _ Hl) as Hlt.
  destruct (truthy (default VNone (services a !! "jinja_environment"%string)))
    eqn:Ht.
  - destruct (services a !! "jinja_environment"%string) as [v|] eqn:Hv;
      [|discriminate].
    exists v, h, a. simpl in Ht.
    pose proof (use_templates_reuse h l a v) as Hreuse.
    unfold view_function in Hreuse.
    split; [apply (Hreuse ld1 false); assumption|].
    split; [apply (Hreuse ld2 false); assumption|].
    split; [exact Hl|]. split; [exact Hv|]. discriminate.
  - pose proof (use_templates_create h l a ld1 false Hl Ht) as Hcreate.
    unfold view_function in Hcreate.
    set (a1 := provisioned_application a (length h)) in *.
    set (h1 := <[l := ObjApplication a1]> h
                 ++ [ObjEnvironment (created_environment l a ld1 false)]) in *.
    assert (h1 !! l = Some (ObjApplication a1)) as Hl1
      by (apply lookup_app_l_Some, list_lookup_insert_eq, Hlt).
    assert (services a1 !! "jinja_environment"%string = Some (VRef (length h)))
      as Hreg.
    { unfold a1, provisioned_application; simpl.
      rewrite lookup_insert_ne by discriminate. apply lookup_insert_eq. }
    exists (VRef (length h)), h1, a1.
    split; [exact Hcreate|].
    split; [apply (use_templates_reuse h1 l a1 (VRef (length h)) ld2 false Hl1 Hreg);
            reflexivity|].
    split; [exact Hl1|]. split; [exact Hreg|].
    intros _. split; [reflexivity|].
    split; [unfold h1; rewrite length_app, length_insert; simpl; lia|].
    apply list_lookup_middle. rewrite length_insert. reflexivity.
Qed.

(** C10. When the registry already holds an environment, [use_templates]
    neither allocates nor changes anything, whatever the flag: with
    [enable_async=True] it returns the coroutine view over the stored
    environment, also when that was created without asynchronous
    rendering, and with [enable_async=False] the synchronous view, also
    over an environment created with it. *)
Theorem use_templates_flag_after_provisioning (h : Heap) (l n : nat)
    (a : Application) (e : Environment) (ld : PackageLoader) :
  h !! l = Some (ObjApplication a) ->
  services a !! "jinja_environment"%string = Some (VRef n) ->
  h !! n = Some (ObjEnvironment e) ->
  use_templates (VRef l) ld true h
  = (Ok (CoroutineFunction (async_view (VRef n))), h) /\
  use_templates (VRef l) ld false h
  = (Ok (PlainFunction (sync_view (VRef n))), h).
Proof.
  intros Hl Hreg _.
  split.
  - apply (use_templates_reuse h l a (VRef n) ld true Hl Hreg). reflexivity.
  - apply (use_templates_reuse h l a (VRef n) ld false Hl Hreg). reflexivity.
Qed.
End provisioning.

(** ** The view functions *)

Section views.
Context {engine : TemplateEngine}.

Lemma get_template_at (h : Heap) (n : nat) (e : Environment) (name : str) :
  h !! n = Some (ObjEnvironment e) ->
  get_template (VRef n) name h = (Environment_get_template e name, h).
Proof.
  intros Hn. unfold get_template.
  erewrite M_bind_Ok; [reflexivity|].
  unfold get_environment. rewrite Hn. reflexivity.
Qed.

Lemma bind_template_Ok (function : string) (a : CallArgs) :
  has_keyword "template" a = false -> bind_template function a = Ok tt.
Proof. intros E. unfold bind_template. rewrite E. reflexivity. Qed.

Lemma bind_template_Raise (function : string) (a : CallArgs) :
  has_keyword "template" a = true ->
  bind_template function a = Raise (multiple_values function).
Proof. intros E. unfold bind_template. rewrite E. reflexivity. Qed.

(** The call of [render_template]: the binding, then the rendering. *)
Lemma render_template_result (t : Template) (a : CallArgs) (h : Heap) :
  render_template t a h
  = (if has_keyword "template" a
     then Raise (multiple_values "render_template")
     else Template_render t a, h).
Proof.
  unfold render_template, bind_template, mbind, M_bind, lift.
  destruct (has_keyword "template" a); reflexivity.
Qed.

(** The synchronous path: resolve, bind, render, wrap; the heap is only
    read. *)
Lemma view_at (h : Heap) (n : nat) (e : Environment) (name : str)
    (a : CallArgs) :
  h !! n = Some (ObjEnvironment e) ->
  view (VRef n) name a h
  = (t ← Environment_get_template e (template_name name);
     html ← (if has_keyword "template" a
             then Raise (multiple_values "render_template")
             else Template_render t a);
     get_response html, h).
Proof.
  intros Hn. unfold view, mbind at 1, M_bind.
  rewrite (get_template_at h n e) by exact Hn.
  destruct (Environment_get_template e (template_name name)) as [t|x];
    [|reflexivity].
  unfold mbind at 1, M_bind. rewrite render_template_result.
  unfold mbind, Result_bind, lift.
  destruct (has_keyword "template" a); [reflexivity|].
  destruct (Template_render t a); reflexivity.
Qed.

(** The body of the coroutine views after resolution, when the call of
    [render_template_async] binds: the engine's awaitable is awaited, and
    what it resolves to is wrapped. *)
Lemma await_rendering (t : Template) (a : CallArgs) :
  has_keyword "template" a = false ->
  exists resume,
    await_call (render_template_async t a)
               (fun html => Finished (get_response html))
    = Awaiting t a resume /\
    forall r, resume r = Finished (r ≫= get_response).
Proof.
  intros E. unfold render_template_async.
  rewrite (bind_template_Ok _ a E).
  eexists. split; [reflexivity|].
  intros [html|x]; reflexivity.
Qed.

(** When the call does not bind, nothing is awaited. *)
Lemma await_rendering_unbound (t : Template) (a : CallArgs) :
  has_keyword "template" a = true ->
  await_call (render_template_async t a)
             (fun html => Finished (get_response html))
  = Finished (Raise (multiple_values "render_template_async")).
Proof.
  intros E. unfold render_template_async.
  rewrite (bind_template_Raise _ a E). reflexivity.
Qed.

Lemma view_async_at (h : Heap) (n : nat) (e : Environment) (name : str)
    (a : CallArgs) :
  h !! n = Some (ObjEnvironment e) ->
  view_async (VRef n) name a h
  = (match Environment_get_template e (template_name name) with
     | Ok t => await_call (render_template_async t a)
                          (fun html => Finished (get_response html))
     | Raise x => Finished (Raise x)
     end, h).
Proof.
  intros Hn. unfold view_async.
  rewrite (get_template_at h n e) by exact Hn.
  destruct (Environment_get_template e (template_name name)); reflexivity.
Qed.

Lemma run_await_rendering (t : Template) (a : CallArgs) :
  run_until_complete
    (await_call (render_template_async t a)
                (fun html => Finished (get_response html)))
  = (html ← (if has_keyword "template" a
             then Raise (multiple_values "render_template_async")
             else Template_render_async t a);
     get_response html).
Proof.
  unfold render_template_async, bind_template.
  destruct (has_keyword "template" a); [reflexivity|].
  simpl. destruct (Template_render_async t a); reflexivity.
Qed.

(** Run to completion, the coroutine path yields what the synchronous path
    yields with [render_template_async] and [render_async] in the place of
    [render_template] and [render]. *)
Lemma run_view_async_at (h : Heap) (n : nat) (e : Environment) (name : str)
    (a : CallArgs) :
  h !! n = Some (ObjEnvironment e) ->
  run_until_complete (view_async (VRef n) name a h).1
  = (t ← Environment_get_template e (template_name name);
     html ← (if has_keyword "template" a
             then Raise (multiple_values "render_template_async")
             else Template_render_async t a);
     get_response html).
Proof.
  intros Hn. rewrite (view_async_at h n e) by exact Hn. cbn [fst].
  destruct (Environment_get_template e (template_name name)) as [t|x];
    [|reflexivity].
  apply run_await_rendering.
Qed.

(** C3 (amended). For every string without a surrogate code point,
    [get_response] returns the response with status 200, the one header
    Cache-Control: no-cache, content type text/html; charset=utf-8 and
    the UTF-8 encoding of the string as body. A string with a surrogate
    code point cannot be encoded: [get_response] raises
    [UnicodeEncodeError]. When [view] is called with render arguments that
    [render_template] accepts (no keyword named [template]) and the
    template renders to "<p>hi</p>", [view] returns that response with the
    octets of "<p>hi</p>" as body, and leaves the heap as it was. *)
Theorem get_response_spec :
  (forall html,
     Forall (fun c => is_surrogate c = false) html ->
     exists encoded,
       encode_utf8 html = Ok encoded /\
       get_response html
       = Ok {| status := 200;
               headers := [(bytes_literal "Cache-Control",
                            bytes_literal "no-cache")];
               content := Some {| content_type :=
                                    bytes_literal "text/html; charset=utf-8";
                                  body := encoded |} |}) /\
  (forall html,
     Exists (fun c => is_surrogate c = true) html ->
     exists position c,
       is_surrogate c = true /\
       get_response html = Raise (UnicodeEncodeError position c)) /\
  (forall (h : Heap) n e name a t,
     h !! n = Some (ObjEnvironment e) ->
     Environment_get_template e (template_name name) = Ok t ->
     has_keyword "template" a = false ->
     Template_render t a = Ok (str_literal "<p>hi</p>") ->
     view (VRef n) name a h
     = (Ok {| status := 200;
              headers := [(bytes_literal "Cache-Control",
                           bytes_literal "no-cache")];
              content := Some {| content_type :=
                                   bytes_literal "text/html; charset=utf-8";
                                 body := bytes_literal "<p>hi</p>" |} |}, h)).
Proof.
  split; [|split].
  - intros html Hs.
    destruct (utf8_encode_from_Ok html 0 Hs) as [encoded He].
    exists encoded. split; [exact He|].
    unfold get_response, encode_utf8. rewrite He. reflexivity.
  - intros html Hs.
    destruct (utf8_encode_from_Raise html 0 Hs) as (p & c & Hc & He).
    exists p, c. split; [exact Hc|].
    unfold get_response, encode_utf8. rewrite He. reflexivity.
  - intros h n e name a t Hn Et Hkw Er.
    rewrite (view_at h n e) by exact Hn.
    rewrite Et, Hkw. simpl. rewrite Er. reflexivity.
Qed.

(** C5. On an application whose registry has no entry
    ['jinja_environment'] or holds an environment there, [use_templates]
    with [enable_async=True] returns a coroutine function, the closure
    [async_view], and with [enable_async=False] a plain function, the
    closure [sync_view]. The closure is over the environment that the
    registry holds under ['jinja_environment'] after the call: the one the
    call created when there was no entry, the stored one otherwise. Called,
    the coroutine view resolves the normalised name, awaits the
    asynchronous rendering of the resolved template, and wraps with
    [get_response] what that rendering resolves to; the plain view resolves
    the normalised name, renders and wraps at once. A render keyword named
    [template] is refused by the call of [render_template] or of
    [render_template_async], after the resolution and before any
    rendering. *)
Theorem use_templates_view_kind (h : Heap) (l : nat) (a : Application)
    (ld : PackageLoader) (flag : bool) :
  h !! l = Some (ObjApplication a) ->
  (services a !! "jinja_environment"%string = None \/
   exists n e,
     services a !! "jinja_environment"%string = Some (VRef n) /\
     h !! n = Some (ObjEnvironment e)) ->
  exists n e h' a',
    use_templates (VRef l) ld flag h
    = (Ok (if flag
           then CoroutineFunction (async_view (VRef n))
           else PlainFunction (sync_view (VRef n))), h') /\
    h' !! l = Some (ObjApplication a') /\
    services a' !! "jinja_environment"%string = Some (VRef n) /\
    h' !! n = Some (ObjEnvironment e) /\
    (services a !! "jinja_environment"%string = None ->
     n = length h /\
     h !! n = None /\
     e = {| loader := ld;
            autoescape := select_autoescape ["html"; "xml"]%string;
            auto_reload := debug a;
            enable_async := flag;
            globals := <["app"%string := VRef l]> DEFAULT_NAMESPACE |}) /\
    (forall n0 e0,
       services a !! "jinja_environment"%string = Some (VRef n0) ->
       h !! n0 = Some (ObjEnvironment e0) ->
       n = n0 /\ e = e0 /\ h' = h) /\
    (forall name args,
       match Environment_get_template e (template_name name) with
       | Raise x =>
           async_view (VRef n) name args h' = (Finished (Raise x), h')
       | Ok t =>
           (has_keyword "template" args = false ->
            exists resume,
              async_view (VRef n) name args h' = (Awaiting t args resume, h') /\
              forall r, resume r = Finished (r ≫= get_response)) /\
           (has_keyword "template" args = true ->
            async_view (VRef n) name args h'
            = (Finished (Raise (multiple_values "render_template_async")), h'))
       end /\
       sync_view (VRef n) name args h'
       = (t ← Environment_get_template e (template_name name);
          html ← (if has_keyword "template" args
                  then Raise (multiple_values "render_template")
                  else Template_render t args);
          get_response html, h')).
Proof.
  intros Hl Hreg.
  assert (forall n e h',
            h' !! n = Some (ObjEnvironment e) ->
            forall name args,
              match Environment_get_template e (template_name name) with
              | Raise x =>
                  async_view (VRef n) name args h' = (Finished (Raise x), h')
              | Ok t =>
                  (has_keyword "template" args = false ->
                   exists resume,
                     async_view (VRef n) name args h'
                     = (Awaiting t args resume, h') /\
                     forall r, resume r = Finished (r ≫= get_response)) /\
                  (has_keyword "template" args = true ->
                   async_view (VRef n) name args h'
                   = (Finished (Raise (multiple_values "render_template_async")),
                      h'))
              end /\
              sync_view (VRef n) name args h'
              = (t ← Environment_get_template e (template_name name);
                 html ← (if has_keyword "template" args
                         then Raise (multiple_values "render_template")
                         else Template_render t args);
                 get_response html, h')) as Hviews.
  { intros n e h' Hn name args. split.
    - change (async_view (VRef n) name args h')
        with (view_async (VRef n) name args h').
      rewrite (view_async_at h' n e) by exact Hn.
      destruct (Environment_get_template e (template_name name)) as [t|x];
        [|reflexivity].
      split.
      + intros Hkw. destruct (await_rendering t args Hkw) as (resume & -> & Hres).
        exists resume. split; [reflexivity | exact Hres].
      + intros Hkw. rewrite (await_rendering_unbound t args Hkw). reflexivity.
    - change (sync_view (VRef n) name args h') with (view (VRef n) name args h').
      apply view_at, Hn. }
  destruct Hreg as [Hnone|(n & e & Hsome & Hn)].
  - destruct (provisioned_lookup h l a (provisioned_application a (length h))
                (created_environment l a ld flag) Hl) as (Hl' & Hn' & _ & _).
    eexists (length h), (created_environment l a ld flag), _,
            (provisioned_application a (length h)).
    split; [apply (use_templates_create h l a ld flag Hl); rewrite Hnone;
            reflexivity|].
    split; [exact Hl'|].
    split.
    { unfold provisioned_application; simpl.
      rewrite lookup_insert_ne by discriminate. apply lookup_insert_eq. }
    split; [exact Hn'|].
    split; [intros _; split; [reflexivity|];
            split; [apply lookup_ge_None_2; lia | reflexivity]|].
    split; [intros n0 e0 Habs _; rewrite Hnone in Habs; discriminate|].
    apply (Hviews _ _ _ Hn').
  - exists n, e, h, a.
    split; [apply (use_templates_reuse h l a (VRef n) ld flag Hl Hsome);
            reflexivity|].
    split; [exact Hl|]. split; [exact Hsome|]. split; [exact Hn|].
    split; [intros Habs; rewrite Hsome in Habs; discriminate|].
    split.
    { intros n0 e0 Hsome0 Hn0. rewrite Hsome in Hsome0.
      injection Hsome0 as <-. rewrite Hn in Hn0. injection Hn0 as <-.
      repeat split; reflexivity. }
    apply (Hviews _ _ _ Hn).
Qed.

(** C6. The docstring of [view_async] speaks of synchronous rendering (it
    is the first sentence of the docstring of [view]), yet the coroutine
    awaits the engine's asynchronous rendering of the resolved template.
    When that rendering resolves to "<p>async</p>", the coroutine
    completes with the response of the synchronous case: status 200,
    Cache-Control: no-cache, and the octets of "<p>async</p>" as body,
    which is what [get_response] gives for that text. So does the coroutine
    view that [use_templates] returns with [enable_async=True], on the
    call that creates the environment with asynchronous rendering as well
    as on a later call. The render arguments are such that
    [render_template_async] accepts them (no keyword named [template]). *)
Theorem view_async_awaits_rendering (h : Heap) (n : nat) (e : Environment)
    (name : str) (args : CallArgs) (t : Template) :
  h !! n = Some (ObjEnvironment e) ->
  Environment_get_template e (template_name name) = Ok t ->
  has_keyword "template" args = false ->
  contains "synchronous rendering" view_async_doc = true /\
  contains "asynchronous" view_async_doc = false /\
  String.prefix view_async_doc view_doc = true /\
  (exists resume,
     view_async (VRef n) name args h = (Awaiting t args resume, h) /\
     forall r, resume r = Finished (r ≫= get_response)) /\
  let response :=
    {| status := 200;
       headers := [(bytes_literal "Cache-Control", bytes_literal "no-cache")];
       content := Some {| content_type :=
                            bytes_literal "text/html; charset=utf-8";
                          body := bytes_literal "<p>async</p>" |} |} in
  (Template_render_async t args = Ok (str_literal "<p>async</p>") ->
   get_response (str_literal "<p>async</p>") = Ok response /\
   run_until_complete (view_async (VRef n) name args h).1 = Ok response /\
   (forall l a ld,
      h !! l = Some (ObjApplication a) ->
      services a !! "jinja_environment"%string = Some (VRef n) ->
      exists f,
        use_templates (VRef l) ld true h = (Ok (CoroutineFunction f), h) /\
        run_until_complete (f name args h).1 = Ok response) /\
   (Template_render t args = Ok (str_literal "<p>async</p>") ->
    view (VRef n) name args h = (Ok response, h))) /\
  (forall (h0 : Heap) l a ld,
     h0 !! l = Some (ObjApplication a) ->
     services a !! "jinja_environment"%string = None ->
     let created :=
       {| loader := ld;
          autoescape := select_autoescape ["html"; "xml"]%string;
          auto_reload := debug a;
          enable_async := true;
          globals := <["app"%string := VRef l]> DEFAULT_NAMESPACE |} in
     exists f h',
       use_templates (VRef l) ld true h0 = (Ok (CoroutineFunction f), h') /\
       h' !! length h0 = Some (ObjEnvironment created) /\
       forall t',
         Environment_get_template created (template_name name) = Ok t' ->
         Template_render_async t' args = Ok (str_literal "<p>async</p>") ->
         (f name args h').2 = h' /\
         run_until_complete (f name args h').1 = Ok response).
Proof.
  intros Hn Et Hkw.
  split; [vm_compute; reflexivity|].
  split; [vm_compute; reflexivity|].
  split; [vm_compute; reflexivity|].
  split.
  { rewrite (view_async_at h n e) by exact Hn. rewrite Et.
    destruct (await_rendering t args Hkw) as (resume & -> & Hres).
    exists resume. split; [reflexivity | exact Hres]. }
  intros response.
  assert (get_response (str_literal "<p>async</p>") = Ok response) as Hresp
    by (vm_compute; reflexivity).
  split.
  - intros Er.
    assert (run_until_complete (view_async (VRef n) name args h).1 = Ok response)
      as Hrun.
    { rewrite (run_view_async_at h n e) by exact Hn.
      rewrite Et, Hkw. simpl. rewrite Er. exact Hresp. }
    split; [exact Hresp|].
    split; [exact Hrun|].
    split.
    + intros l a ld Hl Hreg.
      exists (async_view (VRef n)). split; [|exact Hrun].
      apply (use_templates_reuse h l a (VRef n) ld true Hl Hreg). reflexivity.
    + intros Ers. rewrite (view_at h n e) by exact Hn.
      rewrite Et, Hkw. simpl. rewrite Ers. f_equal.
  - intros h0 l a ld Hl Hnone created.
    destruct (provisioned_lookup h0 l a (provisioned_application a (length h0))
                (created_environment l a ld true) Hl) as (_ & Hn' & _ & _).
    eexists (async_view (VRef (length h0))), _.
    split; [apply (use_templates_create h0 l a ld true Hl); rewrite Hnone;
            reflexivity|].
    split; [exact Hn'|].
    intros t' Et' Er'.
    change (async_view (VRef (length h0)) name args)
      with (view_async (VRef (length h0)) name args).
    split.
    + rewrite (view_async_at _ (length h0) _ name args Hn'). reflexivity.
    + rewrite (run_view_async_at _ (length h0) _ name args Hn').
      unfold created_environment.
      fold created. rewrite Et', Hkw. simpl. rewrite Er'. exact Hresp.
Qed.

(** C7. An exception of the engine comes out of every view entry point as
    it was raised. When the name resolution raises, [view], the closure
    [sync_view], and the coroutines of [view_async] and of the closure
    [async_view] end with that exception; when the rendering is reached
    (the render arguments carry no keyword named [template]) and raises,
    the plain views end with its exception, and when the asynchronous
    rendering resolves to an exception, the coroutine views complete with
    it. In each case the heap, and the registry in it, is as it was. The
    closures are the functions [use_templates] returns. *)
Theorem views_propagate_exceptions (h : Heap) (n : nat) (e : Environment)
    (name : str) (args : CallArgs) (x : Exn) :
  h !! n = Some (ObjEnvironment e) ->
  (Environment_get_template e (template_name name) = Raise x ->
   view (VRef n) name args h = (Raise x, h) /\
   sync_view (VRef n) name args h = (Raise x, h) /\
   view_async (VRef n) name args h = (Finished (Raise x), h) /\
   async_view (VRef n) name args h = (Finished (Raise x), h)) /\
  (forall t,
     Environment_get_template e (template_name name) = Ok t ->
     has_keyword "template" args = false ->
     (Template_render t args = Raise x ->
      view (VRef n) name args h = (Raise x, h) /\
      sync_view (VRef n) name args h = (Raise x, h)) /\
     (Template_render_async t args = Raise x ->
      (view_async (VRef n) name args h).2 = h /\
      run_until_complete (view_async (VRef n) name args h).1 = Raise x /\
      (async_view (VRef n) name args h).2 = h /\
      run_until_complete (async_view (VRef n) name args h).1 = Raise x)) /\
  (forall (h0 : Heap) l a ld flag f h',
     h0 !! l = Some (ObjApplication a) ->
     use_templates (VRef l) ld flag h0 = (Ok f, h') ->
     exists env,
       f = if flag
           then CoroutineFunction (async_view env)
           else PlainFunction (sync_view env)).
Proof.
  intros Hn. split; [|split].
  - intros Et.
    change (sync_view (VRef n) name args h) with (view (VRef n) name args h).
    change (async_view (VRef n) name args h)
      with (view_async (VRef n) name args h).
    rewrite (view_at h n e), (view_async_at h n e) by exact Hn.
    rewrite Et. repeat split; reflexivity.
  - intros t Et Hkw. split.
    + intros Er.
      change (sync_view (VRef n) name args h) with (view (VRef n) name args h).
      rewrite (view_at h n e) by exact Hn.
      rewrite Et, Hkw. simpl. rewrite Er. split; reflexivity.
    + intros Er.
      change (async_view (VRef n) name args h)
        with (view_async (VRef n) name args h).
      rewrite (run_view_async_at h n e) by exact Hn.
      rewrite (view_async_at h n e) by exact Hn.
      rewrite Et, Hkw. simpl. rewrite Er. repeat split; reflexivity.
  - intros h0 l a ld flag f h' Hl Hcall.
    destruct (use_templates_returns h0 l a ld flag Hl) as (env & h1 & Hret).
    rewrite Hret in Hcall. injection Hcall as <- _.
    exists env. reflexivity.
Qed.

(** C8. [view] called with the name "index" asks the environment for the
    same template as [view] called with "index.html": both names
    normalise to "index.html", so the resolution and the whole call
    coincide, for every environment, argument set and heap. *)
Theorem view_index_same_template (env : Value) (args : CallArgs) (h : Heap) :
  template_name (str_literal "index") = str_literal "index.html" /\
  template_name (str_literal "index.html") = str_literal "index.html" /\
  get_template env (template_name (str_literal "index")) h
  = get_template env (template_name (str_literal "index.html")) h /\
  view env (str_literal "index") args h
  = view env (str_literal "index.html") args h.
Proof.
  assert (template_name (str_literal "index") = str_literal "index.html") as H1
    by (vm_compute; reflexivity).
  assert (template_name (str_literal "index.html") = str_literal "index.html")
    as H2 by (vm_compute; reflexivity).
  split; [exact H1|]. split; [exact H2|].
  unfold view. rewrite H1, H2. split; reflexivity.
Qed.
End views.

(** ** The statements at concrete inputs *)

(** C3 as stated fails: a string that holds a lone surrogate is a string,
    and [get_response] does not return a response for it. *)
Lemma get_response_lone_surrogate :
  get_response [0xD800] = Raise (UnicodeEncodeError 0 0xD800) /\
  ~ (forall html : str, exists r, get_response html = Ok r).
Proof.
  split; [vm_compute; reflexivity|].
  intros Hall. destruct (Hall [0xD800]) as [r Hr].
  vm_compute in Hr. discriminate Hr.
Qed.

Lemma get_response_spec_witness :
  Forall (fun c => is_surrogate c = false) (str_literal "<p>hi</p>") /\
  (exists encoded,
     encode_utf8 (str_literal "<p>hi</p>") = Ok encoded /\
     (get_response (str_literal "<p>hi</p>") ≫= fun r => Ok (content r))
     = Ok (Some {| content_type := bytes_literal "text/html; charset=utf-8";
                   body := encoded |})) /\
  (@view index_engine (VRef 1) (str_literal "index") no_args provisioned_heap).2
  = provisioned_heap.
Proof.
  assert (Forall (fun c => is_surrogate c = false) (str_literal "<p>hi</p>"))
    as Hs by (repeat constructor).
  destruct (@get_response_spec index_engine) as (Hok & _ & Hview).
  split; [exact Hs|]. split.
  - destruct (Hok _ Hs) as (encoded & He & Hr).
    exists encoded. split; [exact He|]. rewrite Hr. reflexivity.
  - rewrite (Hview provisioned_heap 1%nat sync_environment (str_literal "index")
               no_args (CompiledTemplate 7) eq_refl eq_refl eq_refl eq_refl).
    reflexivity.
Defined.

Lemma use_templates_provisions_witness :
  fresh_heap !! 0%nat = Some (ObjApplication fresh_app) /\
  services fresh_app !! "jinja_environment"%string = None /\
  exists f a' e,
    @use_templates index_engine (VRef 0) templates_loader false fresh_heap
    = (Ok f, <[0%nat := ObjApplication a']> fresh_heap ++ [ObjEnvironment e]) /\
    services a' !! "jinja"%string = Some (VRef 1) /\
    globals e !! "app"%string = Some (VRef 0).
Proof.
  split; [reflexivity|]. split; [reflexivity|].
  destruct (@use_templates_provisions index_engine fresh_heap 0 fresh_app
              templates_loader false eq_refl eq_refl)
    as (_ & _ & f & a' & e & Hcall & _ & _ & _ & _ & _ & Hjinja & _ & Happ).
  exists f, a', e. split; [exact Hcall|]. split; [exact Hjinja | exact Happ].
Defined.

Lemma use_templates_twice_witness :
  fresh_heap !! 0%nat = Some (ObjApplication fresh_app) /\
  exists env h1,
    @use_templates index_engine (VRef 0) templates_loader false fresh_heap
    = (Ok (PlainFunction (@sync_view index_engine env)), h1) /\
    @use_templates index_engine (VRef 0) templates_loader false h1
    = (Ok (PlainFunction (@sync_view index_engine env)), h1).
Proof.
  split; [reflexivity|].
  destruct (@use_templates_twice index_engine fresh_heap 0 fresh_app
              templates_loader templates_loader eq_refl)
    as (env & h1 & a1 & H1 & H2 & _).
  exists env, h1. split; [exact H1 | exact H2].
Defined.

Lemma use_templates_flag_after_provisioning_witness :
  enable_async sync_environment = false /\
  @use_templates index_engine (VRef 0) templates_loader true provisioned_heap
  = (Ok (CoroutineFunction (@async_view index_engine (VRef 1))), provisioned_heap).
Proof.
  split; [reflexivity|].
  apply (@use_templates_flag_after_provisioning index_engine provisioned_heap
           0 1 _ sync_environment templates_loader eq_refl eq_refl eq_refl).
Defined.

Lemma use_templates_view_kind_witness :
  fresh_heap !! 0%nat = Some (ObjApplication fresh_app) /\
  services fresh_app !! "jinja_environment"%string = None /\
  exists h' a' e,
    @use_templates index_engine (VRef 0) templates_loader true fresh_heap
    = (Ok (CoroutineFunction (@async_view index_engine (VRef 1))), h') /\
    h' !! 0%nat = Some (ObjApplication a') /\
    services a' !! "jinja_environment"%string = Some (VRef 1) /\
    h' !! 1%nat = Some (ObjEnvironment e) /\
    enable_async e = true.
Proof.
  split; [reflexivity|]. split; [reflexivity|].
  destruct (@use_templates_view_kind index_engine fresh_heap 0 fresh_app
              templates_loader true eq_refl (or_introl eq_refl))
    as (n & e & h' & a' & Hcall & Hl & Hreg & He & Hnew & _).
  destruct (Hnew eq_refl) as (-> & _ & Hrec).
  exists h', a', e. split; [exact Hcall|]. split; [exact Hl|].
  split; [exact Hreg|]. split; [exact He|]. rewrite Hrec. reflexivity.
Defined.

Lemma view_async_awaits_rendering_witness :
  async_heap !! 1%nat = Some (ObjEnvironment async_environment) /\
  enable_async async_environment = true /\
  @Environment_get_template index_engine async_environment
    (template_name (str_literal "index")) = Ok (CompiledTemplate 7) /\
  has_keyword "template" no_args = false /\
  (@run_until_complete index_engine _
     (@view_async index_engine (VRef 1) (str_literal "index") no_args
        async_heap).1
   ≫= fun r => Ok (status r)) = Ok 200%Z /\
  exists f h',
    @use_templates index_engine (VRef 0) templates_loader true fresh_heap
    = (Ok (CoroutineFunction f), h') /\
    (@run_until_complete index_engine _ (f (str_literal "index") no_args h').1
     ≫= fun r => Ok (status r)) = Ok 200%Z.
Proof.
  split; [reflexivity|]. split; [reflexivity|].
  split; [vm_compute; reflexivity|]. split; [reflexivity|].
  destruct (@view_async_awaits_rendering index_engine async_heap 1
              async_environment (str_literal "index") no_args (CompiledTemplate 7)
              eq_refl eq_refl eq_refl)
    as (_ & _ & _ & _ & Hdone & Hnew).
  split.
  - destruct (Hdone eq_refl) as (_ & Hrun & _).
    rewrite Hrun. reflexivity.
  - destruct (Hnew fresh_heap 0%nat fresh_app templates_loader eq_refl eq_refl)
      as (f & h' & Hcall & _ & Hrun).
    exists f, h'. split; [exact Hcall|].
    destruct (Hrun (CompiledTemplate 7) eq_refl eq_refl) as [_ ->].
    reflexivity.
Defined.

Lemma views_propagate_exceptions_witness :
  provisioned_heap !! 1%nat = Some (ObjEnvironment sync_environment) /\
  @view failing_engine (VRef 1) (str_literal "missing") no_args provisioned_heap
  = (Raise (TemplateNotFound (str_literal "missing.html")), provisioned_heap) /\
  @view failing_engine (VRef 1) (str_literal "index") no_args provisioned_heap
  = (Raise (UndefinedError (str_literal "user")), provisioned_heap).
Proof.
  split; [reflexivity|]. split.
  - apply (@views_propagate_exceptions failing_engine provisioned_heap 1
             sync_environment (str_literal "missing") no_args
             (TemplateNotFound (str_literal "missing.html")) eq_refl).
    vm_compute. reflexivity.
  - destruct (@views_propagate_exceptions failing_engine provisioned_heap 1
                sync_environment (str_literal "index") no_args
                (UndefinedError (str_literal "user")) eq_refl)
      as (_ & Hrender & _).
    apply (Hrender (CompiledTemplate 7) eq_refl eq_refl). reflexivity.
Defined.

(** * Further properties *)

(** ** Names *)

Lemma template_name_cases (name : str) :
  (~ str_literal ".html" `suffix_of` name /\
   template_name name = name ++ str_literal ".html") \/
  (str_literal ".html" `suffix_of` name /\ template_name name = name).
Proof.
  unfold template_name.
  destruct (endswith name (str_literal ".html")) eqn:E; simpl.
  - right. split; [apply endswith_true, E | reflexivity].
  - left. split; [apply endswith_false, E | reflexivity].
Qed.

Lemma template_name_with_extension (name : str) :
  template_name (name ++ str_literal ".html") = name ++ str_literal ".html".
Proof.
  destruct (template_name_cases (name ++ str_literal ".html")) as [[Hno _]|[_ E]].
  - exfalso. apply Hno. exists name. reflexivity.
  - exact E.
Qed.

(** X1. The normalised name always ends in ['.html'], starts with the given
    name, is at least five code points long, and is longer than the given
    name by zero or by five. *)
Theorem template_name_shape (name : str) :
  str_literal ".html" `suffix_of` template_name name /\
  name `prefix_of` template_name name /\
  (5 <= length (template_name name))%nat /\
  (length (template_name name) = length name \/
   length (template_name name) = (length name + 5)%nat).
Proof.
  assert (str_literal ".html" `suffix_of` template_name name) as Hsuf
    by apply endswith_true, template_name_endswith.
  split; [exact Hsuf|].
  split; [|split].
  - destruct (template_name_cases name) as [[_ ->]|[_ ->]].
    + exists (str_literal ".html"). reflexivity.
    + exists []. symmetry. apply app_nil_r.
  - apply suffix_length in Hsuf. exact Hsuf.
  - destruct (template_name_cases name) as [[_ ->]|[_ ->]].
    + right. rewrite length_app. reflexivity.
    + left. reflexivity.
Qed.

(** X2. The names that normalisation leaves alone are exactly those that
    end in ['.html']. *)
Theorem template_name_fixed_points (name : str) :
  template_name name = name <-> str_literal ".html" `suffix_of` name.
Proof.
  split.
  - intros E. rewrite <- E. apply endswith_true, template_name_endswith.
  - intros Hsuf. destruct (template_name_cases name) as [[Hno _]|[_ E]].
    + contradiction.
    + exact E.
Qed.

(** X3. Two names normalise to the same name only when they are equal or one
    is the other, not yet ending in ['.html'], with ['.html'] appended. *)
Theorem template_name_collisions (a b : str) :
  template_name a = template_name b <->
  a = b \/
  (~ str_literal ".html" `suffix_of` a /\ b = a ++ str_literal ".html") \/
  (~ str_literal ".html" `suffix_of` b /\ a = b ++ str_literal ".html").
Proof.
  split.
  - intros E.
    destruct (template_name_cases a) as [[Ha Ea]|[Ha Ea]];
      destruct (template_name_cases b) as [[Hb Eb]|[Hb Eb]];
      rewrite Ea, Eb in E.
    + left. apply app_inv_tail in E. exact E.
    + right. left. split; [exact Ha | symmetry; exact E].
    + right. right. split; [exact Hb | exact E].
    + left. exact E.
  - intros [->|[[Ha ->]|[Hb ->]]]; [reflexivity| |].
    + destruct (template_name_cases a) as [[_ ->]|[Hyes _]]; [|contradiction].
      symmetry. apply template_name_with_extension.
    + destruct (template_name_cases b) as [[_ ->]|[Hyes _]]; [|contradiction].
      apply template_name_with_extension.
Qed.

(** ** The cache of normalised names *)

Section lru_cache_keys.
Context {K V : Type} `{EqDecision K}.
Variable maxsize : nat.
Variable f : K -> V.








End lru_cache_keys.






(** ** Encoding *)

Lemma to_N_byte_of_N (x : N) : x < 256 -> Byte.to_N (byte_of_N x) = x.
Proof.
  intros Hx. unfold byte_of_N.
  destruct (Byte.of_N x) as [b|] eqn:E; simpl.
  - apply Byte.to_of_N, E.
  - apply Byte.of_N_None_iff in E. lia.
Qed.

(** Below [bound], the bits of [x] and of [base] do not meet. *)
Lemma lor_disjoint (base bound x : N) :
  forallb (fun y => N.lor base y =? base + y)
          (map N.of_nat (seq 0 (N.to_nat bound))) = true ->
  x < bound ->
  N.lor base x = base + x.
Proof.
  intros Hall Hx. rewrite forallb_forall in Hall.
  apply N.eqb_eq, Hall. apply in_map_iff.
  exists (N.to_nat x). split; [apply N2Nat.id | apply in_seq; lia].
Qed.

Lemma continuation_byte_value (c k : N) :
  Byte.to_N (continuation_byte c k) = 0x80 + (c / 2 ^ k) mod 64.
Proof.
  unfold continuation_byte.
  rewrite N.shiftr_div_pow2.
  change 0x3F with (N.ones 6). rewrite N.land_ones. change (2 ^ 6) with 64.
  assert ((c / 2 ^ k) mod 64 < 64) as Hlt by (apply N.mod_lt; discriminate).
  rewrite (lor_disjoint 0x80 64) by (reflexivity || exact Hlt).
  apply to_N_byte_of_N.
  generalize dependent ((c / 2 ^ k) mod 64). intros m Hm. lia.
Qed.

Lemma utf8_decode_cons (b0 : byte) (r0 : bytes) :
  utf8_decode (b0 :: r0)
  = let n0 := Byte.to_N b0 in
    if n0 <? 0x80 then
      cons n0 <$> utf8_decode r0
    else if n0 <? 0xE0 then
      match r0 with
      | b1 :: r1 =>
          cons ((n0 - 0xC0) * 64 + (Byte.to_N b1 - 0x80)) <$> utf8_decode r1
      | _ => None
      end
    else if n0 <? 0xF0 then
      match r0 with
      | b1 :: b2 :: r2 =>
          cons ((n0 - 0xE0) * 4096 + (Byte.to_N b1 - 0x80) * 64
                + (Byte.to_N b2 - 0x80)) <$> utf8_decode r2
      | _ => None
      end
    else
      match r0 with
      | b1 :: b2 :: b3 :: r3 =>
          cons ((n0 - 0xF0) * 262144 + (Byte.to_N b1 - 0x80) * 4096
                + (Byte.to_N b2 - 0x80) * 64 + (Byte.to_N b3 - 0x80))
            <$> utf8_decode r3
      | _ => None
      end.
Proof. reflexivity. Qed.

Ltac decide_ltb :=
  repeat match goal with
  | |- context [?a <? ?b] =>
      first [ rewrite (proj2 (N.ltb_lt a b)) by lia
            | rewrite (proj2 (N.ltb_ge a b)) by lia ]
  end.

(** The six-bit digits of a code point, as the encoder's shifts and masks
    extract them. *)
Lemma code_point_digits (c : N) :
  exists q1 r1 q2 r2 q3 r3,
    (c = 64 * q1 + r1 /\ r1 < 64 /\
     q1 = 64 * q2 + r2 /\ r2 < 64 /\
     q2 = 64 * q3 + r3 /\ r3 < 64) /\
    (c / 2 ^ 0) mod 64 = r1 /\
    c / 2 ^ 6 = q1 /\ (c / 2 ^ 6) mod 64 = r2 /\
    c / 2 ^ 12 = q2 /\ (c / 2 ^ 12) mod 64 = r3 /\
    c / 2 ^ 18 = q3.
Proof.
  assert (64 <> 0) as H64 by discriminate.
  exists (c / 64), (c mod 64), (c / 64 / 64), ((c / 64) mod 64),
         (c / 64 / 64 / 64), ((c / 64 / 64) mod 64).
  split.
  { repeat split; first [apply N.div_mod, H64 | apply N.mod_lt, H64]. }
  assert (c / 2 ^ 12 = c / 64 / 64) as P12
    by (rewrite N.Div0.div_div; reflexivity).
  assert (c / 2 ^ 18 = c / 64 / 64 / 64) as P18
    by (rewrite !N.Div0.div_div; reflexivity).
  rewrite P12, P18. change (2 ^ 0) with 1. rewrite N.div_1_r.
  repeat split; reflexivity.
Qed.

(** One code point, encoded and read back. *)
Lemma utf8_decode_encode_char (c : N) (octets rest : bytes) :
  is_code_point c = true ->
  utf8_encode_char c = Some octets ->
  utf8_decode (octets ++ rest) = cons c <$> utf8_decode rest.
Proof.
  unfold is_code_point, utf8_encode_char. intros Hcp%N.ltb_lt.
  destruct (code_point_digits c)
    as (q1 & r1 & q2 & r2 & q3 & r3 & (D1 & R1 & D2 & R2 & D3 & R3)
        & M0 & E6 & M6 & E12 & M12 & E18).
  destruct (N.ltb_spec c 0x80) as [H1|H1].
  { intros [= <-]. simpl app. rewrite utf8_decode_cons. cbv zeta.
    clear M0 E6 M6 E12 M12 E18.
    rewrite to_N_byte_of_N by lia. decide_ltb. reflexivity. }
  destruct (N.ltb_spec c 0x800) as [H2|H2].
  { intros [= <-]. simpl app. rewrite utf8_decode_cons. cbv zeta.
    rewrite continuation_byte_value, N.shiftr_div_pow2, M0, E6.
    clear M0 E6 M6 E12 M12 E18.
    rewrite (lor_disjoint 0xC0 32) by (reflexivity || lia).
    rewrite to_N_byte_of_N by lia. decide_ltb.
    replace ((0xC0 + q1 - 0xC0) * 64 + (0x80 + r1 - 0x80)) with c by lia.
    reflexivity. }
  destruct (is_surrogate c); [discriminate|].
  destruct (N.ltb_spec c 0x10000) as [H3|H3].
  { intros [= <-]. simpl app. rewrite utf8_decode_cons. cbv zeta.
    rewrite !continuation_byte_value, N.shiftr_div_pow2, M0, M6, E12.
    clear M0 E6 M6 E12 M12 E18.
    rewrite (lor_disjoint 0xE0 16) by (reflexivity || lia).
    rewrite to_N_byte_of_N by lia. decide_ltb.
    replace ((0xE0 + q2 - 0xE0) * 4096 + (0x80 + r2 - 0x80) * 64
             + (0x80 + r1 - 0x80)) with c by lia.
    reflexivity. }
  intros [= <-]. simpl app. rewrite utf8_decode_cons. cbv zeta.
  rewrite !continuation_byte_value, N.shiftr_div_pow2, M0, M6, M12, E18.
  clear M0 E6 M6 E12 M12 E18.
  change 0x07 with (N.ones 3). rewrite N.land_ones. change (2 ^ 3) with 8.
  rewrite (N.mod_small q3 8) by lia.
  rewrite (lor_disjoint 0xF0 8) by (reflexivity || lia).
  rewrite to_N_byte_of_N by lia. decide_ltb.
  replace ((0xF0 + q3 - 0xF0) * 262144 + (0x80 + r3 - 0x80) * 4096
           + (0x80 + r2 - 0x80) * 64 + (0x80 + r1 - 0x80)) with c by lia.
  reflexivity.
Qed.

Lemma utf8_encode_char_length (c : N) (octets : bytes) :
  utf8_encode_char c = Some octets ->
  (1 <= length octets <= 4)%nat.
Proof.
  unfold utf8_encode_char.
  repeat match goal with
         | |- context [if ?b then _ else _] => destruct b
         end;
    intros [= <-]; simpl; lia.
Qed.

(** The starting position only matters for the error that is raised. *)
Lemma utf8_encode_from_position (s : str) (p p' : nat) (encoded : bytes) :
  utf8_encode_from p s = Ok encoded -> utf8_encode_from p' s = Ok encoded.
Proof.
  revert p p' encoded.
  induction s as [|c rest IH]; intros p p' encoded; simpl; [trivial|].
  destruct (utf8_encode_char c) as [octets|]; [|discriminate].
  destruct (utf8_encode_from (S p) rest) as [tail|e] eqn:E; [|discriminate].
  rewrite (IH (S p) (S p') tail E). trivial.
Qed.

Lemma utf8_encode_from_app (s1 s2 : str) (p : nat) (b1 b2 : bytes) :
  utf8_encode_from p s1 = Ok b1 ->
  utf8_encode_from p s2 = Ok b2 ->
  utf8_encode_from p (s1 ++ s2) = Ok (b1 ++ b2).
Proof.
  revert p b1.
  induction s1 as [|c rest IH]; intros p b1; simpl.
  - intros [= <-] E2. exact E2.
  - destruct (utf8_encode_char c) as [octets|]; [|discriminate].
    destruct (utf8_encode_from (S p) rest) as [tail|e] eqn:E; [|discriminate].
    intros [= <-] E2. simpl.
    rewrite (IH (S p) tail E (utf8_encode_from_position s2 p (S p) b2 E2)).
    simpl. rewrite app_assoc. reflexivity.
Qed.

Lemma utf8_encode_from_length (s : str) (p : nat) (encoded : bytes) :
  utf8_encode_from p s = Ok encoded ->
  (length s <= length encoded <= 4 * length s)%nat.
Proof.
  revert p encoded.
  induction s as [|c rest IH]; intros p encoded; simpl.
  - intros [= <-]. simpl. lia.
  - destruct (utf8_encode_char c) as [octets|] eqn:Ec; [|discriminate].
    destruct (utf8_encode_from (S p) rest) as [tail|e] eqn:E; [|discriminate].
    intros [= <-]. rewrite length_app.
    pose proof (utf8_encode_char_length c octets Ec).
    pose proof (IH (S p) tail E). lia.
Qed.

(** Where the encoder stops: at the first surrogate, and nowhere else. *)
Lemma utf8_encode_from_Raise_iff (s : str) (p : nat) (e : Exn) :
  utf8_encode_from p s = Raise e <->
  exists before c after,
    s = before ++ c :: after /\
    Forall (fun c => is_surrogate c = false) before /\
    is_surrogate c = true /\
    e = UnicodeEncodeError (p + length before) c.
Proof.
  revert p e. induction s as [|c rest IH]; intros p e; simpl.
  - split; [discriminate|].
    intros (before & c & after & Hs & _). destruct before; discriminate.
  - destruct (utf8_encode_char c) as [octets|] eqn:Ec.
    + assert (is_surrogate c = false) as Hc.
      { destruct (is_surrogate c) eqn:Hs; [|reflexivity].
        apply utf8_encode_char_None in Hs. congruence. }
      split.
      * destruct (utf8_encode_from (S p) rest) as [tail|e'] eqn:E;
          [discriminate|].
        intros [= <-].
        destruct (proj1 (IH (S p) e') E)
          as (before & c' & after & -> & Hb & Hc' & ->).
        exists (c :: before), c', after.
        split; [reflexivity|]. split; [constructor; assumption|].
        split; [exact Hc'|]. simpl. f_equal. lia.
      * intros (before & c' & after & Hs & Hb & Hc' & ->).
        destruct before as [|c0 before]; simpl in Hs; injection Hs as -> ->.
        { congruence. }
        inversion Hb as [|? ? _ Hb']; subst.
        assert (utf8_encode_from (S p) (before ++ c' :: after)
                = Raise (UnicodeEncodeError (S p + length before) c')) as E.
        { apply IH. exists before, c', after. repeat split; assumption. }
        rewrite E. simpl. do 2 f_equal. lia.
    + apply utf8_encode_char_None in Ec. split.
      * intros [= <-]. exists [], c, rest.
        split; [reflexivity|]. split; [constructor|].
        split; [exact Ec|]. simpl. f_equal. lia.
      * intros (before & c' & after & Hs & Hb & Hc' & ->).
        destruct before as [|c0 before]; simpl in Hs; injection Hs as -> ->.
        { simpl. do 2 f_equal. lia. }
        inversion Hb; subst. congruence.
Qed.

(** The encoding read back is the string. *)
Lemma utf8_decode_encode_from (s : str) (p : nat) (encoded : bytes) :
  Forall (fun c => is_code_point c = true) s ->
  utf8_encode_from p s = Ok encoded ->
  utf8_decode encoded = Some s.
Proof.
  intros Hs. revert p encoded.
  induction Hs as [|c rest Hc Hrest IH]; intros p encoded; simpl.
  - intros [= <-]. reflexivity.
  - destruct (utf8_encode_char c) as [octets|] eqn:Ec; [|discriminate].
    destruct (utf8_encode_from (S p) rest) as [tail|e] eqn:E; [|discriminate].
    intros [= <-].
    rewrite (utf8_decode_encode_char c octets tail Hc Ec).
    rewrite (IH (S p) tail E). reflexivity.
Qed.

(** [get_response] succeeds exactly with the response around the encoding. *)
Lemma get_response_Ok (html : str) (r : Response) :
  get_response html = Ok r <->
  exists encoded, encode_utf8 html = Ok encoded /\ r = html_response encoded.
Proof.
  unfold get_response, html_response.
  destruct (encode_utf8 html) as [encoded|e]; simpl.
  - split.
    + intros [= <-]. exists encoded. split; reflexivity.
    + intros (encoded' & [= <-] & ->). reflexivity.
  - split; [discriminate|]. intros (encoded' & Habs & _). discriminate.
Qed.

Lemma get_response_Raise (html : str) (e : Exn) :
  get_response html = Raise e <-> encode_utf8 html = Raise e.
Proof.
  unfold get_response.
  destruct (encode_utf8 html) as [encoded|e']; simpl.
  - split; discriminate.
  - split; intros [= <-]; reflexivity.
Qed.

(** ** The response *)

(** X6. The body of a response has at least as many octets as the text has
    code points and at most four times as many; for ASCII text it has the
    same octets as the text has code points. *)
Theorem get_response_body_length (html : str) (r : Response) :
  get_response html = Ok r ->
  exists c,
    content r = Some c /\
    (length html <= length (body c) <= 4 * length html)%nat /\
    (Forall (fun cp => cp < 0x80) html -> map Byte.to_N (body c) = html).
Proof.
  intros (encoded & He & ->)%get_response_Ok.
  exists {| content_type := bytes_literal "text/html; charset=utf-8";
            body := encoded |}.
  split; [reflexivity|]. simpl.
  split; [apply (utf8_encode_from_length html 0 encoded He)|].
  intros Hascii. unfold encode_utf8 in He.
  rewrite (utf8_encode_from_ascii html 0 Hascii) in He. injection He as <-.
  clear -Hascii. induction Hascii as [|cp rest Hcp _ IH]; [reflexivity|].
  simpl. rewrite IH, to_N_byte_of_N by lia. reflexivity.
Qed.

Lemma get_response_body_length_witness :
  exists c,
    (get_response [0x3C; 0xE9; 0x20AC; 0x3E] ≫= fun r => Ok (content r))
    = Ok (Some c) /\
    (4 <= length (body c) <= 16)%nat.
Proof.
  destruct (get_response [0x3C; 0xE9; 0x20AC; 0x3E]) as [r|e] eqn:E;
    [|vm_compute in E; discriminate E].
  destruct (get_response_body_length _ r E) as (c & Hc & Hlen & _).
  exists c. simpl. rewrite Hc. split; [reflexivity | exact Hlen].
Defined.

(** X7. [get_response] raises exactly when the text holds a surrogate; the
    exception is [UnicodeEncodeError], and it names the first surrogate of
    the text and its index. *)
Theorem get_response_error_position (html : str) (e : Exn) :
  get_response html = Raise e <->
  exists before c after,
    html = before ++ c :: after /\
    Forall (fun c => is_surrogate c = false) before /\
    is_surrogate c = true /\
    e = UnicodeEncodeError (length before) c.
Proof.
  rewrite get_response_Raise. unfold encode_utf8.
  apply utf8_encode_from_Raise_iff.
Qed.

(** X8. The body of a response, read as UTF-8, is the text that was given;
    so two texts with the same response are the same text. *)
Theorem get_response_round_trip (html : str) (r : Response) :
  Forall (fun c => is_code_point c = true) html ->
  get_response html = Ok r ->
  (exists c, content r = Some c /\ utf8_decode (body c) = Some html) /\
  (forall html',
     Forall (fun c => is_code_point c = true) html' ->
     get_response html' = Ok r ->
     html' = html).
Proof.
  intros Hcp (encoded & He & ->)%get_response_Ok.
  pose proof (utf8_decode_encode_from html 0 encoded Hcp He) as Hdec.
  split.
  - eexists. split; [reflexivity | exact Hdec].
  - intros html' Hcp' (encoded' & He' & Hr)%get_response_Ok.
    injection Hr as <-.
    pose proof (utf8_decode_encode_from html' 0 encoded Hcp' He') as Hdec'.
    congruence.
Qed.

Lemma get_response_round_trip_witness :
  Forall (fun c => is_code_point c = true) [0x3C; 0xE9; 0x20AC; 0x1F600; 0x3E] /\
  forall r,
    get_response [0x3C; 0xE9; 0x20AC; 0x1F600; 0x3E] = Ok r ->
    exists c,
      content r = Some c /\
      utf8_decode (body c) = Some [0x3C; 0xE9; 0x20AC; 0x1F600; 0x3E].
Proof.
  assert (Forall (fun c => is_code_point c = true)
                 [0x3C; 0xE9; 0x20AC; 0x1F600; 0x3E]) as Hcp
    by (repeat constructor).
  split; [exact Hcp|].
  intros r Hr. apply (get_response_round_trip _ r Hcp Hr).
Defined.

(** X9. The response to a concatenation has the concatenation of the two
    bodies as body. *)
Theorem get_response_concat (html1 html2 : str) (r1 r2 : Response) :
  get_response html1 = Ok r1 ->
  get_response html2 = Ok r2 ->
  exists c1 c2,
    content r1 = Some c1 /\
    content r2 = Some c2 /\
    get_response (html1 ++ html2) = Ok (html_response (body c1 ++ body c2)).
Proof.
  intros (b1 & E1 & ->)%get_response_Ok (b2 & E2 & ->)%get_response_Ok.
  eexists _, _. split; [reflexivity|]. split; [reflexivity|]. simpl.
  apply get_response_Ok. exists (b1 ++ b2). split; [|reflexivity].
  apply utf8_encode_from_app; assumption.
Qed.

Lemma get_response_concat_witness :
  (get_response (str_literal "<p>" ++ [0xE9]) ≫= fun r => Ok (content r))
  = Ok (Some {| content_type := bytes_literal "text/html; charset=utf-8";
                body := bytes_literal "<p>" ++ [xc3; xa9] |}).
Proof.
  destruct (get_response_concat (str_literal "<p>") [0xE9]
              (html_response (bytes_literal "<p>"))
              (html_response [xc3; xa9]) eq_refl eq_refl)
    as (c1 & c2 & [= <-] & [= <-] & ->).
  reflexivity.
Defined.

(** ** Views over any value *)

Section more_views.
Context {engine : TemplateEngine}.

Lemma get_template_of (h : Heap) (v : Value) (name : str) :
  get_template v name h
  = (match environment_of h v with
     | Some e => Environment_get_template e name
     | None => Raise (AttributeError "get_template")
     end, h).
Proof.
  unfold get_template, mbind, M_bind, get_environment, environment_of, lift.
  destruct v as [| | | |n]; try reflexivity.
  destruct (h !! n) as [[a|e]|]; reflexivity.
Qed.

Lemma view_of (h : Heap) (v : Value) (name : str) (a : CallArgs) :
  view v name a h
  = (match environment_of h v with
     | Some e =>
         t ← Environment_get_template e (template_name name);
         html ← (if has_keyword "template" a
                 then Raise (multiple_values "render_template")
                 else Template_render t a);
         get_response html
     | None => Raise (AttributeError "get_template")
     end, h).
Proof.
  unfold view, mbind at 1, M_bind. rewrite get_template_of.
  destruct (environment_of h v) as [e|]; [|reflexivity].
  destruct (Environment_get_template e (template_name name)) as [t|x];
    [|reflexivity].
  unfold mbind at 1, M_bind. rewrite render_template_result.
  unfold mbind, Result_bind, lift.
  destruct (has_keyword "template" a); [reflexivity|].
  destruct (Template_render t a); reflexivity.
Qed.

Lemma view_async_of (h : Heap) (v : Value) (name : str) (a : CallArgs) :
  view_async v name a h
  = (match environment_of h v with
     | Some e =>
         match Environment_get_template e (template_name name) with
         | Ok t => await_call (render_template_async t a)
                              (fun html => Finished (get_response html))
         | Raise x => Finished (Raise x)
         end
     | None => Finished (Raise (AttributeError "get_template"))
     end, h).
Proof.
  unfold view_async. rewrite get_template_of.
  destruct (environment_of h v) as [e|]; [|reflexivity].
  destruct (Environment_get_template e (template_name name)); reflexivity.
Qed.

Lemma run_view_async_of (h : Heap) (v : Value) (name : str) (a : CallArgs) :
  run_until_complete (view_async v name a h).1
  = match environment_of h v with
    | Some e =>
        t ← Environment_get_template e (template_name name);
        html ← (if has_keyword "template" a
                then Raise (multiple_values "render_template_async")
                else Template_render_async t a);
        get_response html
    | None => Raise (AttributeError "get_template")
    end.
Proof.
  rewrite view_async_of. cbn [fst].
  destruct (environment_of h v) as [e|]; [|reflexivity].
  destruct (Environment_get_template e (template_name name)) as [t|x];
    [|reflexivity].
  apply run_await_rendering.
Qed.

(** X10. Every response that [view] returns, and every response the
    coroutine of [view_async] completes with, is the fixed response around
    the UTF-8 encoding of what the engine rendered for the template of the
    normalised name: status 200, the single header Cache-Control: no-cache,
    content type text/html; charset=utf-8. Neither call changes the heap,
    whether it succeeds or raises. *)
Theorem views_response_shape (v : Value) (name : str) (a : CallArgs)
    (h : Heap) :
  (view v name a h).2 = h /\
  (view_async v name a h).2 = h /\
  (forall r,
     (view v name a h).1 = Ok r ->
     exists e t html encoded,
       environment_of h v = Some e /\
       Environment_get_template e (template_name name) = Ok t /\
       Template_render t a = Ok html /\
       encode_utf8 html = Ok encoded /\
       r = html_response encoded) /\
  (forall r,
     run_until_complete (view_async v name a h).1 = Ok r ->
     exists e t html encoded,
       environment_of h v = Some e /\
       Environment_get_template e (template_name name) = Ok t /\
       Template_render_async t a = Ok html /\
       encode_utf8 html = Ok encoded /\
       r = html_response encoded).
Proof.
  split; [rewrite view_of; reflexivity|].
  split; [rewrite view_async_of; reflexivity|].
  split.
  - intros r. rewrite view_of. simpl.
    destruct (environment_of h v) as [e|] eqn:Ee; [|discriminate].
    destruct (Environment_get_template e (template_name name)) as [t|x] eqn:Et;
      [|discriminate].
    simpl. destruct (has_keyword "template" a); [discriminate|].
    destruct (Template_render t a) as [html|x] eqn:Er; [|discriminate].
    simpl. intros (encoded & He & ->)%get_response_Ok.
    exists e, t, html, encoded.
    split; [reflexivity|]. split; [exact Et|]. split; [exact Er|].
    split; [exact He | reflexivity].
  - intros r. rewrite run_view_async_of.
    destruct (environment_of h v) as [e|] eqn:Ee; [|discriminate].
    destruct (Environment_get_template e (template_name name)) as [t|x] eqn:Et;
      [|discriminate].
    simpl. destruct (has_keyword "template" a); [discriminate|].
    destruct (Template_render_async t a) as [html|x] eqn:Er;
      [|discriminate].
    simpl. intros (encoded & He & ->)%get_response_Ok.
    exists e, t, html, encoded.
    split; [reflexivity|]. split; [exact Et|]. split; [exact Er|].
    split; [exact He | reflexivity].
Qed.

(** X11. When the engine renders a template to the same outcome
    synchronously and asynchronously, and the render arguments carry no
    keyword named [template], the coroutine of [view_async] completes with
    what [view] returns, be it a response or an exception. *)
Theorem view_async_agrees_with_view (v : Value) (name : str) (a : CallArgs)
    (h : Heap) :
  (forall t, Template_render_async t a = Template_render t a) ->
  has_keyword "template" a = false ->
  run_until_complete (view_async v name a h).1 = (view v name a h).1.
Proof.
  intros Hsame Hkw. rewrite run_view_async_of, view_of. cbn [fst].
  destruct (environment_of h v) as [e|]; [|reflexivity].
  destruct (Environment_get_template e (template_name name)) as [t|x];
    [|reflexivity].
  rewrite Hkw. simpl. rewrite Hsame. reflexivity.
Qed.

(** X20. A render keyword named [template] never reaches the engine's
    rendering: once the name has resolved, [view] raises the [TypeError] of
    the call of [render_template], and the coroutine of [view_async] ends
    with the [TypeError] of the call of [render_template_async], without
    awaiting the engine; the heap is as it was. When the name does not
    resolve, the exception of the resolution comes first. *)
Theorem views_refuse_template_keyword (h : Heap) (n : nat) (e : Environment)
    (name : str) (a : CallArgs) :
  h !! n = Some (ObjEnvironment e) ->
  has_keyword "template" a = true ->
  (forall t,
     Environment_get_template e (template_name name) = Ok t ->
     view (VRef n) name a h
     = (Raise (TypeError (str_literal
          "render_template() got multiple values for argument 'template'")), h) /\
     view_async (VRef n) name a h
     = (Finished (Raise (TypeError (str_literal
          "render_template_async() got multiple values for argument 'template'"))),
        h)) /\
  (forall x,
     Environment_get_template e (template_name name) = Raise x ->
     view (VRef n) name a h = (Raise x, h) /\
     view_async (VRef n) name a h = (Finished (Raise x), h)).
Proof.
  intros Hn Hkw.
  rewrite (view_at h n e), (view_async_at h n e) by exact Hn.
  split.
  - intros t ->. rewrite Hkw, (await_rendering_unbound t a Hkw).
    split; reflexivity.
  - intros x ->. split; reflexivity.
Qed.
End more_views.

Lemma view_async_agrees_with_view_witness :
  has_keyword "template" no_args = false /\
  @run_until_complete failing_engine _
    (@view_async failing_engine (VRef 1) (str_literal "index") no_args
       provisioned_heap).1
  = Raise (UndefinedError (str_literal "user")).
Proof.
  split; [reflexivity|].
  rewrite (@view_async_agrees_with_view failing_engine (VRef 1)
             (str_literal "index") no_args provisioned_heap
             (fun t => eq_refl) eq_refl).
  reflexivity.
Defined.

Lemma views_refuse_template_keyword_witness :
  has_keyword "template" template_keyword_args = true /\
  (@view index_engine (VRef 1) (str_literal "index") template_keyword_args
     provisioned_heap).1
  = Raise (TypeError (str_literal
      "render_template() got multiple values for argument 'template'")).
Proof.
  split; [reflexivity|].
  destruct (@views_refuse_template_keyword index_engine provisioned_heap 1
              sync_environment (str_literal "index") template_keyword_args
              eq_refl eq_refl) as [Hres _].
  destruct (Hres (CompiledTemplate 7) eq_refl) as [-> _]. reflexivity.
Defined.

(** ** Provisioning, in general *)

Section more_provisioning.
Context {engine : TemplateEngine}.

(** X13. The check on the registry entry is a truth test, not a test for an
    environment: an entry that is true but no environment (a non-empty
    string, a non-zero number, another object) is kept, nothing is created,
    and the view that is returned raises [AttributeError] when called, as
    [view] and [view_async] do on such a value. *)
Theorem use_templates_keeps_true_entry (h : Heap) (l : nat) (a : Application)
    (v : Value) (ld : PackageLoader) (flag : bool) (name : str)
    (args : CallArgs) :
  h !! l = Some (ObjApplication a) ->
  services a !! "jinja_environment"%string = Some v ->
  truthy v = true ->
  environment_of h v = None ->
  use_templates (VRef l) ld flag h
  = (Ok (if flag
         then CoroutineFunction (async_view v)
         else PlainFunction (sync_view v)), h) /\
  sync_view v name args h = (Raise (AttributeError "get_template"), h) /\
  async_view v name args h
  = (Finished (Raise (AttributeError "get_template")), h) /\
  view v name args h = (Raise (AttributeError "get_template"), h) /\
  view_async v name args h
  = (Finished (Raise (AttributeError "get_template")), h).
Proof.
  intros Hl Hv Ht Hnone.
  split; [apply (use_templates_reuse h l a v ld flag Hl Hv Ht)|].
  change (sync_view v name args h) with (view v name args h).
  change (async_view v name args h) with (view_async v name args h).
  rewrite view_of, view_async_of, Hnone. repeat split; reflexivity.
Qed.

(** X16. A call on an application allocates at most one object and frees
    none; every other object of the heap, in particular every environment
    that existed, is as it was; the application keeps its debug flag and
    every registry entry other than ['jinja_environment'] and ['jinja']. *)
Theorem use_templates_frame (h h' : Heap) (l : nat) (a : Application)
    (ld : PackageLoader) (flag : bool) (f : Callable) :
  h !! l = Some (ObjApplication a) ->
  use_templates (VRef l) ld flag h = (Ok f, h') ->
  (length h <= length h' <= S (length h))%nat /\
  (forall j, j <> l -> (j < length h)%nat -> h' !! j = h !! j) /\
  exists a',
    h' !! l = Some (ObjApplication a') /\
    debug a' = debug a /\
    forall key,
      key <> "jinja_environment"%string -> key <> "jinja"%string ->
      services a' !! key = services a !! key.
Proof.
  intros Hl Hcall.
  destruct (use_templates_cases h l a Hl) as [(v & _ & _ & Hre)|(_ & Hcr)].
  - rewrite Hre in Hcall. injection Hcall as _ <-.
    split; [lia|]. split; [reflexivity|].
    exists a. split; [exact Hl|]. split; reflexivity.
  - rewrite Hcr in Hcall. injection Hcall as _ <-.
    destruct (provisioned_lookup h l a (provisioned_application a (length h))
                (created_environment l a ld flag) Hl) as (Hl' & _ & Hlen & Hj).
    split; [rewrite Hlen; lia|]. split; [exact Hj|].
    exists (provisioned_application a (length h)).
    split; [exact Hl'|]. split; [reflexivity|].
    intros key H1 H2. unfold provisioned_application; simpl.
    rewrite !lookup_insert_ne by congruence. reflexivity.
Qed.

(** X17. After one call on an application, every later call, with whatever
    loader and flag, changes nothing and returns a view over the same
    environment as the first; an environment the first call created keeps
    the loader and the flag of that first call. *)
Theorem use_templates_later_calls (h h1 : Heap) (l : nat) (a : Application)
    (ld1 : PackageLoader) (flag1 : bool) (f1 : Callable) :
  h !! l = Some (ObjApplication a) ->
  use_templates (VRef l) ld1 flag1 h = (Ok f1, h1) ->
  exists env,
    f1 = (if flag1
          then CoroutineFunction (async_view env)
          else PlainFunction (sync_view env)) /\
    (forall ld2 flag2,
       use_templates (VRef l) ld2 flag2 h1
       = (Ok (if flag2
              then CoroutineFunction (async_view env)
              else PlainFunction (sync_view env)), h1)) /\
    (services a !! "jinja_environment"%string = None ->
     exists e,
       env = VRef (length h) /\
       h1 !! length h = Some (ObjEnvironment e) /\
       loader e = ld1 /\ enable_async e = flag1).
Proof.
  intros Hl Hcall.
  destruct (use_templates_cases h l a Hl)
    as [(v & Hv & Ht & Hre)|(Hf & Hcr)].
  - rewrite Hre in Hcall. injection Hcall as <- <-.
    exists v. split; [reflexivity|]. split; [exact Hre|].
    rewrite Hv. discriminate.
  - rewrite Hcr in Hcall. injection Hcall as <- <-.
    destruct (provisioned_lookup h l a (provisioned_application a (length h))
                (created_environment l a ld1 flag1) Hl) as (Hl' & Hn' & _ & _).
    exists (VRef (length h)). split; [reflexivity|]. split.
    + intros ld2 flag2.
      apply (use_templates_reuse _ l (provisioned_application a (length h))
               (VRef (length h)) ld2 flag2 Hl'); [|reflexivity].
      unfold provisioned_application; simpl.
      rewrite lookup_insert_ne by discriminate. apply lookup_insert_eq.
    + intros _. exists (created_environment l a ld1 flag1).
      split; [reflexivity|]. split; [exact Hn'|]. split; reflexivity.
Qed.

(** X18. The view returned by the call that creates the environment asks
    the engine with that environment: the loader of the call, autoescape
    for html and xml, [auto_reload] equal to the debug flag, the flag of the
    call, and the application as global ['app']. With render arguments that
    carry no keyword named [template], the plain view then renders and
    wraps, and the coroutine view completes with the asynchronous rendering
    wrapped. *)
Theorem use_templates_then_view (h : Heap) (l : nat) (a : Application)
    (ld : PackageLoader) (flag : bool) (name : str) (args : CallArgs) :
  h !! l = Some (ObjApplication a) ->
  services a !! "jinja_environment"%string = None ->
  has_keyword "template" args = false ->
  let e := {| loader := ld;
              autoescape := select_autoescape ["html"; "xml"]%string;
              auto_reload := debug a;
              enable_async := flag;
              globals := <["app"%string := VRef l]> DEFAULT_NAMESPACE |} in
  exists f h',
    use_templates (VRef l) ld flag h = (Ok f, h') /\
    h' !! length h = Some (ObjEnvironment e) /\
    match f with
    | PlainFunction g =>
        flag = false /\
        g name args h'
        = (t ← Environment_get_template e (template_name name);
           html ← Template_render t args;
           get_response html, h')
    | CoroutineFunction g =>
        flag = true /\
        (g name args h').2 = h' /\
        run_until_complete (g name args h').1
        = (t ← Environment_get_template e (template_name name);
           html ← Template_render_async t args;
           get_response html)
    end.
Proof.
  intros Hl Hnone Hkw e.
  destruct (provisioned_lookup h l a (provisioned_application a (length h))
              (created_environment l a ld flag) Hl) as (_ & Hn' & _ & _).
  eexists _, _.
  split; [apply (use_templates_create h l a ld flag Hl); rewrite Hnone;
          reflexivity|].
  split; [exact Hn'|].
  unfold view_function. destruct flag.
  - split; [reflexivity|].
    change (async_view (VRef (length h)) name args)
      with (view_async (VRef (length h)) name args).
    split.
    + rewrite (view_async_at _ (length h) _ name args Hn'). reflexivity.
    + rewrite (run_view_async_at _ (length h) _ name args Hn'), Hkw.
      reflexivity.
  - split; [reflexivity|].
    change (sync_view (VRef (length h)) name args)
      with (view (VRef (length h)) name args).
    rewrite (view_at _ (length h) _ name args Hn'), Hkw. reflexivity.
Qed.

(** X19. For every name that does not end in ['.html'], a view called with
    the name and a view called with the name followed by ['.html'] are the
    same call: [view] returns the same, and [view_async] gives the same
    coroutine. *)
Theorem view_with_or_without_extension (v : Value) (name : str)
    (args : CallArgs) (h : Heap) :
  ~ str_literal ".html" `suffix_of` name ->
  view v (name ++ str_literal ".html") args h = view v name args h /\
  view_async v (name ++ str_literal ".html") args h = view_async v name args h.
Proof.
  intros Hno.
  assert (template_name (name ++ str_literal ".html") = template_name name) as E.
  { rewrite template_name_with_extension.
    destruct (template_name_cases name) as [[_ ->]|[Hyes _]];
      [reflexivity | contradiction]. }
  unfold view, view_async. rewrite E. split; reflexivity.
Qed.
End more_provisioning.

Lemma use_templates_keeps_true_entry_witness :
  truthy (VStr (str_literal "x")) = true /\
  environment_of text_entry_heap (VStr (str_literal "x")) = None /\
  @use_templates index_engine (VRef 0) templates_loader false text_entry_heap
  = (Ok (PlainFunction (@sync_view index_engine (VStr (str_literal "x")))),
     text_entry_heap) /\
  @sync_view index_engine (VStr (str_literal "x")) (str_literal "index") no_args
    text_entry_heap
  = (Raise (AttributeError "get_template"), text_entry_heap).
Proof.
  split; [reflexivity|]. split; [reflexivity|].
  destruct (@use_templates_keeps_true_entry index_engine text_entry_heap 0 _
              (VStr (str_literal "x")) templates_loader false
              (str_literal "index") no_args eq_refl eq_refl eq_refl eq_refl)
    as (Hcall & Hsync & _).
  split; [exact Hcall | exact Hsync].
Defined.

Lemma use_templates_frame_witness :
  (length (@use_templates index_engine (VRef 0) templates_loader true
             fresh_heap).2 <= 2)%nat.
Proof.
  destruct (@use_templates index_engine (VRef 0) templates_loader true fresh_heap)
    as [[f|x] h'] eqn:E.
  - apply (@use_templates_frame index_engine fresh_heap h' 0 fresh_app
             templates_loader true f eq_refl E).
  - vm_compute in E. discriminate E.
Defined.

Lemma use_templates_later_calls_witness :
  (@use_templates index_engine (VRef 0)
     {| package_name := "other"; package_path := "views" |} true
     (@use_templates index_engine (VRef 0) templates_loader false fresh_heap).2).2
  = (@use_templates index_engine (VRef 0) templates_loader false fresh_heap).2.
Proof.
  destruct (@use_templates index_engine (VRef 0) templates_loader false fresh_heap)
    as [[f|x] h'] eqn:E.
  - destruct (@use_templates_later_calls index_engine fresh_heap h' 0 fresh_app
                templates_loader false f eq_refl E) as (env & _ & Hlater & _).
    simpl. rewrite Hlater. reflexivity.
  - vm_compute in E. discriminate E.
Defined.

Lemma use_templates_then_view_witness :
  fresh_heap !! 0%nat = Some (ObjApplication fresh_app) /\
  services fresh_app !! "jinja_environment"%string = None /\
  exists f h',
    @use_templates index_engine (VRef 0) templates_loader false fresh_heap
    = (Ok f, h').
Proof.
  split; [reflexivity|]. split; [reflexivity|].
  destruct (@use_templates_then_view index_engine fresh_heap 0 fresh_app
              templates_loader false (str_literal "index") no_args
              eq_refl eq_refl eq_refl) as (f & h' & Hcall & _).
  exists f, h'. exact Hcall.
Defined.

Lemma view_with_or_without_extension_witness :
  @view index_engine (VRef 1) (str_literal "about" ++ str_literal ".html")
    no_args provisioned_heap
  = @view index_engine (VRef 1) (str_literal "about") no_args provisioned_heap.
Proof.
  apply (@view_with_or_without_extension index_engine (VRef 1)
           (str_literal "about") no_args provisioned_heap).
  apply (proj1 (endswith_false _ _)). vm_compute. reflexivity.
Defined.
